(** * os_client_config.cloud_config: the CloudConfig profile

    A shallow embedding of [src/os_client_config/cloud_config.py] and the
    properties of its resolution engine: attribute lookup, TLS argument
    materialisation, service discovery, session memoisation, endpoint
    resolution, the legacy client bridge and cache-policy delegation. *)

From Stdlib Require Import ZArith String Ascii List.
From stdpp Require Import base gmap sets list strings.

Set Warnings "-register-all".
Open Scope string_scope.

(** ** Python values

    The configuration mapping holds arbitrary Python objects.  The model
    covers [None], booleans, integers, strings, tuples and nested mappings
    with string keys.  Floating-point objects are not part of [value]. *)

Inductive value : Type :=
| VNone
| VBool (b : bool)
| VInt (z : Z)
| VStr (s : string)
| VTuple (vs : list value)
| VDict (m : gmap string value).

(** Python's truth value of an object, as tested by [if], [and] and [not]. *)
Definition truthy (v : value) : bool :=
  match v with
  | VNone => false
  | VBool b => b
  | VInt z => negb (Z.eqb z 0)
  | VStr s => negb (String.eqb s EmptyString)
  | VTuple vs => match vs with [] => false | _ => true end
  | VDict m => negb (bool_decide (m = ∅))
  end.

(** Python's [==] identifies [True] with [1] and [False] with [0]; tuples
    compare element-wise and mappings key-wise.  [norm] sends every value to
    the canonical representative of its [==]-class. *)
Fixpoint norm (v : value) : value :=
  match v with
  | VBool b => VInt (Z.b2z b)
  | VTuple vs => VTuple (map norm vs)
  | VDict m => VDict (norm <$> m)
  | _ => v
  end.

Global Instance value_eq_dec : EqDecision value.
Proof.
  refine (fix go (x y : value) {struct x} : Decision (x = y) :=
    let _ : EqDecision value := go in
    match x, y with
    | VNone, VNone => left _
    | VBool a, VBool b => cast_if (decide (a = b))
    | VInt a, VInt b => cast_if (decide (a = b))
    | VStr a, VStr b => cast_if (decide (a = b))
    | VTuple a, VTuple b => cast_if (decide (a = b))
    | VDict a, VDict b => cast_if (decide (a = b))
    | _, _ => right _
    end); abstract congruence.
Defined.

Definition py_eq (a b : value) : bool := bool_decide (norm a = norm b).

(** ** String methods used by the module *)

(** [s.startswith(p)] is [String.prefix p s]. *)
Definition startswith (s p : string) : bool := String.prefix p s.

(** [s.endswith(suffix)]: some tail of [s] is [suffix]. *)
Fixpoint endswith (s suffix : string) : bool :=
  String.eqb s suffix ||
  match s with
  | EmptyString => false
  | String _ s' => endswith s' suffix
  end.

(** The slice [s[n:]]. *)
Fixpoint slice_from (n : nat) (s : string) : string :=
  match n, s with
  | O, _ => s
  | S n', String _ s' => slice_from n' s'
  | S _, EmptyString => EmptyString
  end.

(** [s.replace(old, new)] for one-character [old] and [new]. *)
Fixpoint replace (old new : ascii) (s : string) : string :=
  match s with
  | EmptyString => EmptyString
  | String c s' =>
      String (if Ascii.eqb c old then new else c) (replace old new s')
  end.

(** [s.split(sep)] for a one-character separator. *)
Fixpoint split (sep : ascii) (s : string) : list string :=
  match s with
  | EmptyString => [EmptyString]
  | String c s' =>
      if Ascii.eqb c sep then EmptyString :: split sep s'
      else match split sep s' with
           | [] => [String c EmptyString]
           | w :: ws => String c w :: ws
           end
  end.

(** [sep.join(l)]. *)
Fixpoint join (sep : string) (l : list string) : string :=
  match l with
  | [] => EmptyString
  | [x] => x
  | x :: xs => x ++ sep ++ join sep xs
  end.

(** The slice [l[:-2]]: everything but the last two items. *)
Definition but_last_two {A} (l : list A) : list A :=
  take (length l - 2) l.

(** ** Exceptions and results *)

Inductive exn : Type :=
| KeyError (key : string)
| OpenStackConfigException (msg : string)
| ExternalError (msg : string).

Inductive result (A : Type) : Type :=
| Return (a : A)
| Raise (e : exn).
Arguments Return {A} a.
Arguments Raise {A} e.

(** [d[k]] and [d.get(k, default)] on a dict. *)
Definition getitem (d : gmap string value) (k : string) : result value :=
  match d !! k with
  | Some v => Return v
  | None => Raise (KeyError k)
  end.

Definition dict_get (d : gmap string value) (k : string) (dflt : value) : value :=
  match d !! k with
  | Some v => v
  | None => dflt
  end.

(** The keys of a dict, as iteration yields them.  Only membership in this
    list is ever observed below. *)
Definition keys (d : gmap string value) : list string := (map_to_list d).*1.

(** ** The profile object *)

(** An authentication plugin is an opaque object handed in by the loader;
    being an object it is truthy, so [not self._auth] holds exactly when no
    plugin is bound. *)
Inductive AuthPlugin : Type := AuthObj (ident : nat).

(** A [keystoneauth1.session.Session] object: its identity and the
    arguments it was constructed from. *)
Record Session : Type := mkSession {
  session_ident : nat;
  session_auth : AuthPlugin;
  session_verify : value;
  session_cert : value;
  session_timeout : value
}.

(** Modelled from the spec: the [OpenStackConfig] class (the ProfileStore)
    is not part of the sources at hand; it exposes the cache-expiration-time,
    cache-path, cache-class, cache-arguments and cache-expiration-mapping
    queries, which the record stores as the answers they give. *)
Record OpenStackConfig : Type := mkOpenStackConfig {
  oc_cache_expiration_time : value;
  oc_cache_path : value;
  oc_cache_class : value;
  oc_cache_arguments : value;
  oc_cache_expiration : gmap string value
}.

Record CloudConfig : Type := mkCloudConfig {
  name : string;
  region : string;
  config : gmap string value;
  _force_ipv4 : bool;
  _auth : option AuthPlugin;
  _openstack_config : option OpenStackConfig;
  _keystone_session : option Session
}.

Definition __init__ (name region : string) (config : gmap string value)
    (force_ipv4 : bool) (auth_plugin : option AuthPlugin)
    (openstack_config : option OpenStackConfig) : CloudConfig :=
  {| name := name; region := region; config := config;
     _force_ipv4 := force_ipv4; _auth := auth_plugin;
     _openstack_config := openstack_config; _keystone_session := None |}.

(** ** Attribute resolver *)

Definition __getattr__ (self : CloudConfig) (key : string) : result value :=
  let key := if startswith key "os_" then slice_from 3 key else key in
  if bool_decide (key ∈ map (replace "-" "_") (keys (config self)))
  then getitem (config self) key
  else Return VNone.

(** The attribute resolver as the specification words it: the requested key
    loses its prefix and has its dashes normalised, and the value of a
    config key with the same normal form is the answer. *)
Definition getAttribute_spec (self : CloudConfig) (key : string) : result value :=
  let key := if startswith key "os_" then slice_from 3 key else key in
  let key := replace "-" "_" key in
  match filter (fun kv => replace "-" "_" kv.1 = key) (map_to_list (config self)) with
  | kv :: _ => Return kv.2
  | [] => Return VNone
  end.

Definition __iter__ (self : CloudConfig) : list string := keys (config self).

(** ** Equality *)

Definition __eq__ (self other : CloudConfig) : bool :=
  String.eqb (name self) (name other)
  && String.eqb (region self) (region other)
  && py_eq (VDict (config self)) (VDict (config other)).

Definition __ne__ (self other : CloudConfig) : bool := negb (__eq__ self other).

(** ** Per-service key resolution *)

Definition get_auth_args (self : CloudConfig) : result value :=
  getitem (config self) "auth".

(** An optional string argument is [None] when the caller left it out;
    [not arg] holds for [None] and for the empty string. *)
Definition not_arg (arg : option string) : bool :=
  match arg with
  | None => true
  | Some s => String.eqb s EmptyString
  end.

Definition get_interface (self : CloudConfig) (service_type : option string) : value :=
  let interface := dict_get (config self) "interface" VNone in
  if not_arg service_type then interface
  else dict_get (config self) (default EmptyString service_type ++ "_interface") interface.

Definition get_region_name (self : CloudConfig) (service_type : option string) : value :=
  if not_arg service_type then VStr (region self)
  else dict_get (config self) (default EmptyString service_type ++ "_region_name")
                (VStr (region self)).

Definition get_api_version (self : CloudConfig) (service_type : string) : value :=
  dict_get (config self) (service_type ++ "_api_version") VNone.

Definition get_service_type (self : CloudConfig) (service_type : string) : value :=
  dict_get (config self) (service_type ++ "_service_type") (VStr service_type).

Definition get_service_name (self : CloudConfig) (service_type : string) : value :=
  dict_get (config self) (service_type ++ "_service_name") VNone.

Definition get_endpoint (self : CloudConfig) (service_type : string) : value :=
  dict_get (config self) (service_type ++ "_endpoint") VNone.

Definition prefer_ipv6 (self : CloudConfig) : bool := negb (_force_ipv4 self).
Definition force_ipv4 (self : CloudConfig) : bool := _force_ipv4 self.
Definition get_auth (self : CloudConfig) : option AuthPlugin := _auth self.

(** ** Service discovery *)

Definition is_service_key (key : string) : bool :=
  endswith key "api_version"
  || endswith key "service_type"
  || endswith key "service_name".

(** The list [services] built by the loop, in iteration order. *)
Definition services_of (keys : list string) : list string :=
  map (fun key => join "_" (but_last_two (split "_" key)))
      (filter (fun key => is_service_key key = true) keys).

(** [list(set(services))]: the order of the returned list is unspecified, so
    the result is the set of its items. *)
Definition get_services (self : CloudConfig) : gset string :=
  list_to_set (services_of (keys (config self))).

(** Service discovery as the specification words it: only keys ending in
    [_api_version], [_service_type] or [_service_name] are scanned. *)
Definition is_service_key_spec (key : string) : bool :=
  endswith key "_api_version"
  || endswith key "_service_type"
  || endswith key "_service_name".

Definition get_services_spec (self : CloudConfig) : gset string :=
  list_to_set
    (map (fun key => join "_" (but_last_two (split "_" key)))
         (filter (fun key => is_service_key_spec key = true) (keys (config self)))).

(** ** Effects

    A method runs against the object it is called on and the world around
    it: the [Session] objects constructed so far and the trace of warnings,
    log records and library calls.  An exception leaves both as they were
    when it was raised. *)

(** The two ways [Session.get_endpoint] is called. *)
Inductive endpoint_query : Type :=
| AuthInterfaceQuery
| CatalogQuery (service_type service_name interface : value) (region_name : string).

Inductive event : Type :=
| Warn (msg : string)
| LogDebug (msg : string)
| SquelchWarnings (insecure_requests : bool)
| EndpointQueried (session : Session) (query : endpoint_query).

Record world : Type := mkWorld {
  sessions : list Session;
  trace : list event
}.

Definition state : Type := CloudConfig * world.

Definition M (A : Type) : Type := state -> result A * state.

Definition ret {A} (a : A) : M A := fun st => (Return a, st).
Definition raise {A} (e : exn) : M A := fun st => (Raise e, st).
Definition lift {A} (r : result A) : M A := fun st => (r, st).
Definition bind {A B} (m : M A) (f : A -> M B) : M B :=
  fun st =>
    match m st with
    | (Return a, st') => f a st'
    | (Raise e, st') => (Raise e, st')
    end.

Declare Scope py_scope.
Delimit Scope py_scope with py.
Notation "x <- m ;; k" := (bind m (fun x => k))
  (at level 20, m at level 99, k at level 200, only parsing) : py_scope.
Notation "' pat <- m ;; k" := (bind m (fun x => match x with pat => k end))
  (at level 20, pat pattern, m at level 99, k at level 200, only parsing) : py_scope.
Notation "m ;;; k" := (bind m (fun _ => k))
  (at level 100, k at level 200, only parsing, right associativity) : py_scope.
Open Scope py_scope.

Definition this : M CloudConfig := fun st => (Return st.1, st).

Definition emit (e : event) : M unit :=
  fun st => (Return tt, (st.1, {| sessions := sessions st.2; trace := trace st.2 ++ [e] |})).

Definition when (b : bool) (m : M unit) : M unit := if b then m else ret tt.

(** The object after [self._keystone_session = s]. *)
Definition with_session (self : CloudConfig) (s : Session) : CloudConfig :=
  {| name := name self; region := region self; config := config self;
     _force_ipv4 := _force_ipv4 self; _auth := _auth self;
     _openstack_config := _openstack_config self;
     _keystone_session := Some s |}.

Definition set_keystone_session (s : Session) : M unit :=
  fun st => (Return tt, (with_session st.1 s, st.2)).

(** ** TLS and credential materialisation *)

Definition cacert_warning (cloud : string) : string :=
  "You are specifying a cacert for the cloud " ++ cloud ++
  " but also to ignore the host verification. The host SSL cert will not be verified.".

Definition get_requests_verify_args : M (value * value) :=
  self <- this ;;
  v <- lift (getitem (config self) "verify") ;;
  both <- (if truthy v
           then c <- lift (getitem (config self) "cacert") ;; ret (truthy c)
           else ret false) ;;
  verify <- (if both : bool
             then lift (getitem (config self) "cacert")
             else
               verify <- lift (getitem (config self) "verify") ;;
               c <- lift (getitem (config self) "cacert") ;;
               when (truthy c) (emit (Warn (cacert_warning (name self)))) ;;;
               ret verify) ;;
  let cert := dict_get (config self) "cert" VNone in
  cert <- (if truthy cert
           then
             k <- lift (getitem (config self) "key") ;;
             if truthy k
             then k' <- lift (getitem (config self) "key") ;; ret (VTuple [cert; k'])
             else ret cert
           else ret cert) ;;
  ret (verify, cert).

(** ** Session acquisition *)

Definition ssl_debug_note (cloud region : string) : string :=
  "Turning off SSL warnings for " ++ cloud ++ ":" ++ region ++ " since verify=False".

Definition auth_problem : exn :=
  OpenStackConfigException "Problem with auth parameters".

(** ** Endpoint resolution and the client bridges *)

(** Arguments handed to a client constructor: configuration values and the
    session handle. *)
Inductive pyobj : Type :=
| OVal (v : value)
| OSession (s : Session).

Section Collaborators.

(** The Session constructor, the catalogue and token queries of a Session
    and glanceclient's [strip_version] belong to other libraries; each may
    raise.  [Session_init] gives the exception the constructor raises on its
    arguments, if any (it converts the timeout with [float()]).  The
    catalogue query goes over the network: its answer depends on everything
    that happened before it, so a repeated query may answer differently or
    fail. *)
Variable Session_init : AuthPlugin -> value -> value -> value -> option exn.
Variable Session_get_endpoint : list event -> Session -> endpoint_query -> result value.
Variable Session_get_token : Session -> result value.
Variable strip_version : value -> result (value * value).

(** [session.Session(auth=, verify=, cert=, timeout=)]: unless the
    constructor raises, a new object, distinct from every Session
    constructed before. *)
Definition Session_new (auth : AuthPlugin) (verify cert timeout : value) : M Session :=
  fun st =>
    match Session_init auth verify cert timeout with
    | Some e => (Raise e, st)
    | None =>
        let s := mkSession (length (sessions st.2)) auth verify cert timeout in
        (Return s, (st.1, {| sessions := sessions st.2 ++ [s]; trace := trace st.2 |}))
    end.

Definition get_session : M Session :=
  self <- this ;;
  match _keystone_session self with
  | Some s => ret s
  | None =>
      match _auth self with
      | None => raise auth_problem
      | Some auth =>
          '(verify, cert) <- get_requests_verify_args ;;
          when (negb (truthy verify))
               (emit (LogDebug (ssl_debug_note (name self) (region self)))) ;;;
          emit (SquelchWarnings (negb (truthy verify))) ;;;
          timeout <- lift (getitem (config self) "api_timeout") ;;
          s <- Session_new auth verify cert timeout ;;
          set_keystone_session s ;;;
          ret s
      end
  end.

(** [session.get_endpoint(...)]: the call is recorded, whatever its outcome. *)
Definition Session_query (session : Session) (query : endpoint_query) : M value :=
  fun st =>
    (Session_get_endpoint (trace st.2) session query,
     (st.1, {| sessions := sessions st.2;
               trace := trace st.2 ++ [EndpointQueried session query] |})).

Definition get_session_endpoint (service_key : string) : M value :=
  self <- this ;;
  let override_endpoint := get_endpoint self service_key in
  if truthy override_endpoint then ret override_endpoint
  else
    session <- get_session ;;
    if String.eqb service_key "identity"
    then Session_query session AuthInterfaceQuery
    else Session_query session
           (CatalogQuery (get_service_type self service_key)
                         (get_service_name self service_key)
                         (get_interface self (Some service_key))
                         (region self)).

(** The calls that may touch the session field, and the state each leaves
    behind, whatever its outcome. *)
Inductive call : Type :=
| CallGetSession
| CallGetSessionEndpoint (service_key : string)
| CallGetRequestsVerifyArgs.

Definition perform (c : call) (st : state) : state :=
  match c with
  | CallGetSession => (get_session st).2
  | CallGetSessionEndpoint k => (get_session_endpoint k st).2
  | CallGetRequestsVerifyArgs => (get_requests_verify_args st).2
  end.

Definition after (calls : list call) (st : state) : state :=
  foldl (fun st c => perform c st) st calls.

Section Client.

(** The client object a constructor builds, and the constructor itself,
    called with positional and keyword arguments. *)
Variable Client : Type.
Variable client_class : list pyobj -> gmap string pyobj -> result Client.

Definition _get_swift_client : M (option Client) :=
  session <- get_session ;;
  token <- lift (Session_get_token session) ;;
  endpoint <- get_session_endpoint "object-store" ;;
  if negb (truthy endpoint) then ret None
  else
    self <- this ;;
    timeout <- lift (__getattr__ self "api_timeout") ;;
    c <- lift (client_class []
           {[ "preauthurl" := OVal endpoint;
              "preauthtoken" := OVal token;
              "auth_version" := OVal (get_api_version self "identity");
              "os_options" := OVal (VDict
                 {[ "auth_token" := token;
                    "object_storage_url" := endpoint;
                    "region_name" := get_region_name self None ]});
              "timeout" := OVal timeout ]}) ;;
    ret (Some c).

Definition get_legacy_client (service_key : string)
    (interface_key : option string) (pass_version_arg : bool)
    (kwargs : gmap string pyobj) : M (option Client) :=
  if String.eqb service_key "object-store" then _get_swift_client
  else
    self <- this ;;
    let interface := get_interface self (Some service_key) in
    endpoint <- get_session_endpoint service_key ;;
    let interface_key :=
      if not_arg interface_key
      then (if String.eqb service_key "image" then "interface" else "endpoint_type")
      else default EmptyString interface_key in
    session <- get_session ;;
    let constructor_kwargs : gmap string pyobj :=
      {[ "session" := OSession session;
         "service_name" := OVal (get_service_name self service_key);
         "service_type" := OVal (get_service_type self service_key);
         "region_name" := OVal (VStr (region self)) ]} in
    constructor_kwargs <-
      (if String.eqb service_key "image"
       then '(endpoint, version) <- lift (strip_version endpoint) ;;
            ret (<["endpoint" := OVal endpoint]> constructor_kwargs)
       else ret constructor_kwargs) ;;
    let constructor_kwargs := kwargs ∪ constructor_kwargs in
    let constructor_kwargs := <[interface_key := OVal interface]> constructor_kwargs in
    '(constructor_args, constructor_kwargs) <-
      (if pass_version_arg
       then
         let version := get_api_version self service_key in
         let version :=
           if String.eqb service_key "network" && py_eq version (VStr "2")
           then VStr "2.0" else version in
         constructor_kwargs <-
           (if String.eqb service_key "identity"
            then match constructor_kwargs !! "endpoint" with
                 | None =>
                     endpoint <- get_session_endpoint "identity" ;;
                     ret (<["endpoint" := OVal endpoint]> constructor_kwargs)
                 | Some _ => ret constructor_kwargs
                 end
            else ret constructor_kwargs) ;;
         ret ([OVal version], constructor_kwargs)
       else ret ([], constructor_kwargs)) ;;
    c <- lift (client_class constructor_args constructor_kwargs) ;;
    ret (Some c).

End Client.

End Collaborators.

(** ** Cache-policy delegation *)

Definition get_cache_expiration_time (self : CloudConfig) : value :=
  match _openstack_config self with
  | Some oc => oc_cache_expiration_time oc
  | None => VNone
  end.

Definition get_cache_path (self : CloudConfig) : value :=
  match _openstack_config self with
  | Some oc => oc_cache_path oc
  | None => VNone
  end.

Definition get_cache_class (self : CloudConfig) : value :=
  match _openstack_config self with
  | Some oc => oc_cache_class oc
  | None => VNone
  end.

Definition get_cache_arguments (self : CloudConfig) : value :=
  match _openstack_config self with
  | Some oc => oc_cache_arguments oc
  | None => VNone
  end.

Definition get_cache_expiration (self : CloudConfig) : value :=
  match _openstack_config self with
  | Some oc => VDict (oc_cache_expiration oc)
  | None => VNone
  end.

Section Float.

(** Python's float objects and the builtin [float()], which raises on an
    argument it cannot convert. *)
Variable PyFloat : Type.
Variable float_ : value -> result PyFloat.

(** The answer is either an ordinary value ([default], or the [None] of a
    method that ends without [return]) or a float. *)
Definition get_cache_resource_expiration (self : CloudConfig)
    (resource : string) (dflt : value) : result (value + PyFloat) :=
  match _openstack_config self with
  | Some oc =>
      let expiration := oc_cache_expiration oc in
      match expiration !! resource with
      | None => Return (inl dflt)
      | Some v =>
          match float_ v with
          | Return f => Return (inr f)
          | Raise e => Raise e
          end
      end
  | None => Return (inl VNone)
  end.

End Float.

(** ** Definitions used in the statements *)

(** The fields equality looks at. *)
Definition same_identity (a b : CloudConfig) : Prop :=
  name a = name b ∧ region a = region b ∧ config a = config b.

(** The catalogue query put to the Session for a service. *)
Definition catalog_query (self : CloudConfig) (service_key : string) : endpoint_query :=
  if String.eqb service_key "identity" then AuthInterfaceQuery
  else CatalogQuery (get_service_type self service_key)
                    (get_service_name self service_key)
                    (get_interface self (Some service_key))
                    (region self).

(** The world after the contradictory-configuration warning. *)
Definition warned (self : CloudConfig) (w : world) : world :=
  {| sessions := sessions w; trace := trace w ++ [Warn (cacert_warning (name self))] |}.

(** The keyword arguments assembled for a service other than the image,
    identity and object-store ones. *)
Definition plain_kwargs (self : CloudConfig) (service_key : string)
    (interface_key : option string) (kwargs : gmap string pyobj)
    (session : Session) : gmap string pyobj :=
  <[(if not_arg interface_key then "endpoint_type"
     else default EmptyString interface_key)
    := OVal (get_interface self (Some service_key))]>
    (kwargs ∪ {[ "session" := OSession session;
                 "service_name" := OVal (get_service_name self service_key);
                 "service_type" := OVal (get_service_type self service_key);
                 "region_name" := OVal (VStr (region self)) ]}).

(** What the bridge returns once [client_class] has been called. *)
Definition constructed {Client} (r : result Client) : result (option Client) :=
  match r with
  | Return c => Return (Some c)
  | Raise e => Raise e
  end.

(** The trace a first successful call adds after the TLS arguments are
    known: the debug note when verification is off, then the squelch call. *)
Definition session_events (self : CloudConfig) (verify : value) : list event :=
  (if truthy verify then []
   else [LogDebug (ssl_debug_note (name self) (region self))])
  ++ [SquelchWarnings (negb (truthy verify))].

(** A call either leaves the object and the list of constructed Sessions
    alone, or - only when no Session was memoised - constructs one Session
    and memoises that very Session. *)
Definition step (st st' : state) : Prop :=
  (st'.1 = st.1 ∧ sessions st'.2 = sessions st.2)
  ∨ (_keystone_session st.1 = None
     ∧ ∃ s, st'.1 = with_session st.1 s
            ∧ sessions st'.2 = (sessions st.2 ++ [s])%list).

Definition stable {A} (m : M A) : Prop := ∀ st, step st (m st).2.

(** What [step] says, spelled out for a method [m]. *)
Definition keeps_profile {A} (m : M A) : Prop :=
  ∀ (st : state) (other : CloudConfig),
    let st' := (m st).2 in
    name st'.1 = name st.1 ∧ region st'.1 = region st.1
    ∧ config st'.1 = config st.1 ∧ _force_ipv4 st'.1 = _force_ipv4 st.1
    ∧ _auth st'.1 = _auth st.1 ∧ _openstack_config st'.1 = _openstack_config st.1
    ∧ __eq__ st'.1 other = __eq__ st.1 other
    ∧ (∀ s, _keystone_session st.1 = Some s →
            st'.1 = st.1 ∧ sessions st'.2 = sessions st.2)
    ∧ (_keystone_session st.1 = None →
       (st'.1 = st.1 ∧ sessions st'.2 = sessions st.2)
       ∨ ∃ s, _keystone_session st'.1 = Some s
              ∧ sessions st'.2 = (sessions st.2 ++ [s])%list).

(** The keyword under which the interface is passed. *)
Definition interface_keyword (service_key : string) (interface_key : option string)
    : string :=
  if not_arg interface_key
  then (if String.eqb service_key "image" then "interface" else "endpoint_type")
  else default EmptyString interface_key.

(** The keyword arguments computed before the caller's are merged in. *)
Definition computed_kwargs (self : CloudConfig) (service_key : string)
    (session : Session) : gmap string pyobj :=
  {[ "session" := OSession session;
     "service_name" := OVal (get_service_name self service_key);
     "service_type" := OVal (get_service_type self service_key);
     "region_name" := OVal (VStr (region self)) ]}.

(** The positional arguments for a service: the version, rewritten for
    [network], or none. *)
Definition version_args (self : CloudConfig) (service_key : string)
    (pass_version_arg : bool) : list pyobj :=
  if pass_version_arg
  then [OVal (if String.eqb service_key "network"
                 && py_eq (get_api_version self service_key) (VStr "2")
              then VStr "2.0" else get_api_version self service_key)]
  else [].

Definition swift_kwargs (self : CloudConfig) (endpoint token timeout : value)
    : gmap string pyobj :=
  {[ "preauthurl" := OVal endpoint;
     "preauthtoken" := OVal token;
     "auth_version" := OVal (get_api_version self "identity");
     "os_options" := OVal (VDict
        {[ "auth_token" := token;
           "object_storage_url" := endpoint;
           "region_name" := VStr (region self) ]});
     "timeout" := OVal timeout ]}.

(** ** Sample configurations *)

Definition dashed : gmap string value := {[ "foo-bar" := VInt 1 ]}.
Definition underscored : gmap string value := {[ "foo_bar" := VInt 1 ]}.

Definition mixed_true : gmap string value := {[ "verify" := VBool true ]}.
Definition mixed_one : gmap string value := {[ "verify" := VInt 1 ]}.

Definition scenario_services : gmap string value :=
  {[ "compute_api_version" := VStr "2";
     "network_service_type" := VStr "network";
     "other_key" := VInt 1 ]}.

Definition bare_api_version : gmap string value := {[ "api_version" := VStr "2" ]}.

Definition verify_off : gmap string value := {[ "verify" := VBool false ]}.

Definition scenario_verify_on : gmap string value :=
  {[ "verify" := VBool true; "cacert" := VStr "/ca.pem" ]}.
Definition scenario_verify_off : gmap string value :=
  {[ "verify" := VBool false; "cacert" := VStr "/ca.pem" ]}.

Definition scenario_verify_off_timeout : gmap string value :=
  {[ "verify" := VBool false; "cacert" := VStr "/ca.pem"; "api_timeout" := VInt 60 ]}.

Definition cert_without_key : gmap string value :=
  {[ "verify" := VBool true; "cacert" := VNone; "cert" := VStr "/c.pem" ]}.

Definition cert_with_key : gmap string value :=
  {[ "verify" := VBool true; "cacert" := VNone;
     "cert" := VStr "/c.pem"; "key" := VStr "/k.pem" ]}.

Definition auth_only : CloudConfig :=
  __init__ "cloud" "region" ∅ false (Some (AuthObj 0)) None.

(** A constructor that accepts every argument, and one that, like
    [float()], refuses a timeout that is text, a tuple or a dict. *)
Definition accept_all (auth : AuthPlugin) (verify cert timeout : value) : option exn :=
  None.

Definition numeric_timeout (auth : AuthPlugin) (verify cert timeout : value)
    : option exn :=
  match timeout with
  | VStr _ | VTuple _ | VDict _ =>
      Some (ExternalError "could not convert string to float")
  | _ => None
  end.

Definition text_timeout : gmap string value :=
  {[ "verify" := VBool true; "cacert" := VNone; "api_timeout" := VStr "abc" ]}.

Definition session_ready : gmap string value :=
  {[ "verify" := VBool true; "cacert" := VNone; "api_timeout" := VInt 60 ]}.

Definition empty_override : gmap string value :=
  {[ "compute_endpoint" := VStr EmptyString ]}.

Definition network_v2 : gmap string value :=
  {[ "verify" := VBool true; "cacert" := VNone; "api_timeout" := VInt 60;
     "network_api_version" := VStr "2" ]}.

Definition net_profile : CloudConfig :=
  __init__ "cloud" "region" network_v2 false (Some (AuthObj 0)) None.

(** Catalogues: one that knows no endpoint, one that always gives the same
    endpoint, one that gives another endpoint from the second query on, and
    one that fails from the second query on. *)
Definition silent_catalog (history : list event) (s : Session) (q : endpoint_query)
    : result value :=
  Return VNone.

Definition net_catalog (history : list event) (s : Session) (q : endpoint_query)
    : result value :=
  Return (VStr "https://network.example").

Definition queried (history : list event) : bool :=
  existsb (fun e => match e with EndpointQueried _ _ => true | _ => false end) history.

Definition moving_catalog (history : list event) (s : Session) (q : endpoint_query)
    : result value :=
  if queried history then Return (VStr "https://second.example")
  else Return (VStr "https://first.example").

Definition flaky_catalog (history : list event) (s : Session) (q : endpoint_query)
    : result value :=
  if queried history then Raise (ExternalError "connection reset")
  else Return (VStr "https://first.example").

Definition no_token (s : Session) : result value := Return VNone.

Definition no_strip (endpoint : value) : result (value * value) :=
  Return (endpoint, VNone).

(** A constructor that hands back the arguments it was called with. *)
Definition record_call (args : list pyobj) (kwargs : gmap string pyobj)
    : result (list pyobj * gmap string pyobj) :=
  Return (args, kwargs).

Definition net_session : Session :=
  mkSession 0 (AuthObj 0) (VBool true) VNone (VInt 60).

(** The catalogue query for a service without overrides, and the state
    once the Session exists and the given queries have been put to it. *)
Definition plain_query (service_key : string) : endpoint_query :=
  CatalogQuery (VStr service_key) VNone VNone "region".

Definition net_state (queries : list endpoint_query) : state :=
  (with_session net_profile net_session,
   mkWorld [net_session]
     (SquelchWarnings false :: map (EndpointQueried net_session) queries)).

Definition os_prefixed : gmap string value := {[ "os_foo" := VInt 1 ]}.

Definition region_override : gmap string pyobj :=
  {[ "region_name" := OVal (VStr "elsewhere") ]}.

Definition swift_override : gmap string value :=
  {[ "object-store_endpoint" := VStr "https://swift.example" ]}.

Definition compute_public : gmap string value :=
  {[ "compute_interface" := VStr "public" ]}.

(** * Properties *)

(** ** Auxiliary facts about strings and dicts *)

Lemma elem_of_keys (d : gmap string value) (k : string) :
  k ∈ keys d ↔ is_Some (d !! k).
Proof.
  unfold keys. rewrite list_elem_of_fmap. split.
  - intros [[k' v] [-> Hin]]. apply elem_of_map_to_list in Hin. eauto.
  - intros [v Hv]. exists (k, v). split; [done|]. by apply elem_of_map_to_list.
Qed.

Lemma replace_idemp (old new : ascii) (s : string) :
  old ≠ new → replace old new (replace old new s) = replace old new s.
Proof.
  intros Hne. induction s as [|c s IH]; simpl; [done|].
  rewrite IH. f_equal.
  destruct (Ascii.eqb c old) eqn:E; [|by rewrite E].
  destruct (Ascii.eqb new old) eqn:E'; [|done].
  apply Ascii.eqb_eq in E'. congruence.
Qed.

Lemma elem_of_normalized_keys (d : gmap string value) (k : string) :
  k ∈ map (replace "-" "_") (keys d)
  ↔ ∃ k', is_Some (d !! k') ∧ replace "-" "_" k' = k.
Proof.
  rewrite list_elem_of_fmap. split.
  - intros [k' [-> Hin]]. exists k'. by rewrite <- elem_of_keys.
  - intros [k' [Hin <-]]. exists k'. by rewrite elem_of_keys.
Qed.

Lemma filter_ext_elem_of {A} (P Q : A → Prop)
    `{!∀ x, Decision (P x), !∀ x, Decision (Q x)} (l : list A) :
  (∀ x, x ∈ l → P x ↔ Q x) → filter P l = filter Q l.
Proof.
  induction l as [|a l IH]; intros Hext; [done|].
  rewrite !filter_cons. rewrite IH by (intros x Hx; apply Hext; by right).
  destruct (decide (P a)) as [Hp|Hp], (decide (Q a)) as [Hq|Hq]; try done.
  - exfalso. apply Hq, Hext; [by left | done].
  - exfalso. apply Hp, Hext; [by left | done].
Qed.

(** ** Attribute resolver *)

(** C1: on a config whose key holds a dash the resolver finds the requested
    [foo_bar] among the normalised keys and then indexes the dict with the
    key as requested: a [KeyError], where the specification's resolver
    answers [1] and promises never to raise. *)
Lemma getattr_raises_on_dashed_config_key :
  __getattr__ (__init__ "cloud" "region" dashed false None None) "foo_bar"
    = Raise (KeyError "foo_bar")
  ∧ getAttribute_spec (__init__ "cloud" "region" dashed false None None) "foo_bar"
    = Return (VInt 1).
Proof. split; vm_compute; reflexivity. Qed.

(** A dash in the requested key is kept, so the key is never found. *)
Example getattr_keeps_requested_dash :
  __getattr__ (__init__ "cloud" "region" underscored false None None) "foo-bar"
    = Return VNone
  ∧ getAttribute_spec (__init__ "cloud" "region" underscored false None None) "foo-bar"
    = Return (VInt 1).
Proof. split; vm_compute; reflexivity. Qed.

(** Where the resolver does answer: it drops a leading [os_] from the
    requested key and leaves its dashes alone.  When the resulting key has no
    dash and is a key of [config], the value stored under it is returned;
    when no config key, its dashes turned into underscores, equals the
    resulting key - as is the case whenever that key contains a dash - the
    answer is [None] and nothing is raised. *)
Theorem getattr_resolution (self : CloudConfig) (key : string) :
  let k := if startswith key "os_" then slice_from 3 key else key in
  (∀ v, config self !! k = Some v → replace "-" "_" k = k →
        __getattr__ self key = Return v)
  ∧ ((∀ k', is_Some (config self !! k') → replace "-" "_" k' ≠ k) →
        __getattr__ self key = Return VNone)
  ∧ (replace "-" "_" k ≠ k → __getattr__ self key = Return VNone).
Proof.
  intros k.
  assert (Hnone : (∀ k', is_Some (config self !! k') → replace "-" "_" k' ≠ k) →
                  __getattr__ self key = Return VNone).
  { intros Hno. unfold __getattr__. fold k. rewrite bool_decide_eq_false_2; [done|].
    rewrite elem_of_normalized_keys. intros [k' [Hin Heq]]. by apply (Hno k'). }
  split; [|split].
  - intros v Hv Hk. unfold __getattr__. fold k. rewrite bool_decide_eq_true_2.
    + unfold getitem. by rewrite Hv.
    + apply elem_of_normalized_keys. exists k. eauto.
  - exact Hnone.
  - intros Hk. apply Hnone. intros k' _ Heq. apply Hk.
    rewrite <- Heq. by apply replace_idemp.
Qed.

Lemma getattr_resolution_witness :
  __getattr__ (__init__ "cloud" "region" underscored false None None) "os_foo_bar"
    = Return (VInt 1)
  ∧ __getattr__ (__init__ "cloud" "region" underscored false None None) "foo-bar"
    = Return VNone.
Proof.
  split.
  - apply (getattr_resolution
             (__init__ "cloud" "region" underscored false None None) "os_foo_bar").
    + vm_compute; reflexivity.
    + vm_compute; reflexivity.
  - apply (getattr_resolution
             (__init__ "cloud" "region" underscored false None None) "foo-bar").
    vm_compute. discriminate.
Defined.

(** ** Equality *)

Lemma py_eq_refl (a : value) : py_eq a a = true.
Proof. unfold py_eq. by apply bool_decide_eq_true_2. Qed.

Lemma py_eq_sym (a b : value) : py_eq a b = py_eq b a.
Proof. unfold py_eq. apply bool_decide_ext. split; congruence. Qed.

Lemma py_eq_trans (a b c : value) :
  py_eq a b = true → py_eq b c = true → py_eq a c = true.
Proof.
  unfold py_eq. rewrite !bool_decide_eq_true. congruence.
Qed.

(** Two dicts are [==] when they have the same keys and [==] values. *)
Lemma py_eq_dict (a b : gmap string value) :
  py_eq (VDict a) (VDict b) = true
  ↔ ∀ k, match a !! k, b !! k with
         | Some x, Some y => py_eq x y = true
         | None, None => True
         | _, _ => False
         end.
Proof.
  unfold py_eq. rewrite bool_decide_eq_true. simpl. split.
  - intros Heq k. assert (Hk : (norm <$> a) !! k = (norm <$> b) !! k) by congruence.
    rewrite !lookup_fmap in Hk.
    destruct (a !! k), (b !! k); simpl in Hk; try done.
    rewrite bool_decide_eq_true. congruence.
  - intros Hall. f_equal. apply map_eq. intros k. rewrite !lookup_fmap.
    specialize (Hall k). destruct (a !! k), (b !! k); simpl; try done.
    rewrite bool_decide_eq_true in Hall. congruence.
Qed.

(** A string compared with [==] equals only itself. *)
Lemma py_eq_str (v : value) (s : string) : py_eq v (VStr s) = true ↔ v = VStr s.
Proof.
  unfold py_eq. rewrite bool_decide_eq_true.
  destruct v; simpl; split; congruence.
Qed.

(** C8: two profiles are equal exactly when their names, their regions and
    their configs are equal; the relation is reflexive, symmetric and
    transitive; the auth plugin, the store, [force_ipv4] and the memoised
    session have no part in it; and [!=] is its negation. *)
Theorem eq_depends_on_name_region_config :
  (∀ a b, __eq__ a b = true
          ↔ name a = name b ∧ region a = region b
            ∧ py_eq (VDict (config a)) (VDict (config b)) = true)
  ∧ (∀ a, __eq__ a a = true)
  ∧ (∀ a b, __eq__ a b = __eq__ b a)
  ∧ (∀ a b c, __eq__ a b = true → __eq__ b c = true → __eq__ a c = true)
  ∧ (∀ a a' b b', same_identity a a' → same_identity b b' →
                  __eq__ a b = __eq__ a' b')
  ∧ (∀ n r c f f' au au' oc oc' ks ks' b,
       __eq__ (mkCloudConfig n r c f au oc ks) b
       = __eq__ (mkCloudConfig n r c f' au' oc' ks') b)
  ∧ (∀ a b, __ne__ a b = negb (__eq__ a b)).
Proof.
  assert (Hiff : ∀ a b, __eq__ a b = true
          ↔ name a = name b ∧ region a = region b
            ∧ py_eq (VDict (config a)) (VDict (config b)) = true).
  { intros a b. unfold __eq__. rewrite !andb_true_iff, !String.eqb_eq. tauto. }
  split; [exact Hiff|]. split; [|split; [|split; [|split; [|split]]]].
  - intros a. apply Hiff. repeat split; auto using py_eq_refl.
  - intros a b. unfold __eq__.
    by rewrite (String.eqb_sym (name a)), (String.eqb_sym (region a)), py_eq_sym.
  - intros a b c [Hn [Hr Hc]]%Hiff [Hn' [Hr' Hc']]%Hiff. apply Hiff.
    repeat split; [congruence..|]. by eapply py_eq_trans.
  - intros a a' b b' (Hn & Hr & Hc) (Hn' & Hr' & Hc'). unfold __eq__.
    by rewrite Hn, Hr, Hc, Hn', Hr', Hc'.
  - reflexivity.
  - reflexivity.
Qed.

Lemma eq_depends_on_name_region_config_witness :
  __eq__ (mkCloudConfig "cloud" "region" mixed_true false None None None)
         (mkCloudConfig "cloud" "region" mixed_true true (Some (AuthObj 7)) None
            (Some (mkSession 0 (AuthObj 7) (VBool true) VNone VNone)))
  = true.
Proof.
  apply (proj1 (proj2 (proj2 (proj2 eq_depends_on_name_region_config)))
           _ (mkCloudConfig "cloud" "region" mixed_one false None None None)).
  - vm_compute; reflexivity.
  - vm_compute; reflexivity.
Defined.

(** ** Service discovery *)

Example get_services_scenario :
  get_services (__init__ "cloud" "region" scenario_services false None None)
  = {[ "compute"; "network" ]}.
Proof. vm_compute. reflexivity. Qed.

(** C6: the loop tests the suffixes [api_version], [service_type] and
    [service_name] without the underscore in front, so the cloud-wide key
    [api_version] is taken for a service key and, having only two tokens,
    yields the empty service name; scanning for [_api_version] yields
    nothing. *)
Theorem get_services_bare_key :
  get_services (__init__ "cloud" "region" bare_api_version false None None)
    = {[ EmptyString ]}
  ∧ get_services_spec (__init__ "cloud" "region" bare_api_version false None None) = ∅.
Proof. split; vm_compute; reflexivity. Qed.

(** On configs whose scanned keys all carry the underscore the two agree. *)
Lemma get_services_agree (self : CloudConfig) :
  (∀ k, is_Some (config self !! k) → is_service_key k = true →
        is_service_key_spec k = true) →
  (∀ k, is_service_key_spec k = true → is_service_key k = true) →
  get_services self = get_services_spec self.
Proof.
  intros Hto Hfrom. unfold get_services, get_services_spec, services_of.
  f_equal. f_equal. apply filter_ext_elem_of. intros k Hk.
  apply elem_of_keys in Hk. split; [by apply Hto|apply Hfrom].
Qed.

(** ** Cache-policy delegation *)

Section FloatFacts.

Variable PyFloat : Type.
Variable float_ : value -> result PyFloat.

Lemma get_cache_resource_expiration_present self oc resource dflt v :
  _openstack_config self = Some oc →
  oc_cache_expiration oc !! resource = Some v →
  get_cache_resource_expiration PyFloat float_ self resource dflt
  = match float_ v with Return f => Return (inr f) | Raise e => Raise e end.
Proof. intros Hoc Hv. unfold get_cache_resource_expiration. by rewrite Hoc, Hv. Qed.

Lemma get_cache_resource_expiration_missing self oc resource dflt :
  _openstack_config self = Some oc →
  oc_cache_expiration oc !! resource = None →
  get_cache_resource_expiration PyFloat float_ self resource dflt
  = Return (inl dflt).
Proof. intros Hoc Hv. unfold get_cache_resource_expiration. by rewrite Hoc, Hv. Qed.

Lemma get_cache_resource_expiration_unbound self resource dflt :
  _openstack_config self = None →
  get_cache_resource_expiration PyFloat float_ self resource dflt
  = Return (inl VNone).
Proof. intros Hoc. unfold get_cache_resource_expiration. by rewrite Hoc. Qed.

End FloatFacts.

(** C7: with no store bound the method ends without a [return] and answers
    [None], whatever default was supplied - here [5], which the docstring
    promises to give back. *)
Theorem get_cache_resource_expiration_ignores_default
    (PyFloat : Type) (float_ : value -> result PyFloat) :
  get_cache_resource_expiration PyFloat float_
    (__init__ "cloud" "region" ∅ false None None) "server" (VInt 5)
  = Return (inl VNone)
  ∧ (Return (inl VNone) : result (value + PyFloat)) ≠ Return (inl (VInt 5)).
Proof. split; [reflexivity | discriminate]. Qed.

(** ** TLS and credential materialisation *)

(** Unfolding of the monadic plumbing. *)
Ltac run :=
  unfold bind, lift, this, ret, raise, when, emit, getitem, dict_get; simpl.

Lemma get_requests_verify_args_ok (self : CloudConfig) (w : world) (v c : value) :
  config self !! "verify" = Some v →
  config self !! "cacert" = Some c →
  (truthy (dict_get (config self) "cert" VNone) = true → is_Some (config self !! "key")) →
  get_requests_verify_args (self, w)
  = (Return (if truthy v && truthy c then c else v,
             let cert := dict_get (config self) "cert" VNone in
             let key := dict_get (config self) "key" VNone in
             if truthy cert && truthy key then VTuple [cert; key] else cert),
     (self, if negb (truthy v) && truthy c then warned self w else w)).
Proof.
  intros Hv Hc Hkey. unfold get_requests_verify_args. run. rewrite Hv, Hc.
  unfold dict_get in Hkey.
  destruct (truthy v) eqn:Ev, (truthy c) eqn:Ec; simpl; rewrite ?Hv, ?Hc, ?Ec; simpl;
    destruct (config self !! "cert") as [cert|]; simpl; try reflexivity;
    (destruct (truthy cert) eqn:Ecert; simpl; [|reflexivity]);
    destruct (Hkey eq_refl) as [k Hk]; rewrite Hk; simpl;
    destruct (truthy k); simpl; rewrite ?Hk; reflexivity.
Qed.

(** With [verify] switched off and no [cacert] entry at all, the method reads
    [config['cacert']] to decide about the warning and fails. *)
Lemma verify_args_raise_without_cacert :
  get_requests_verify_args
    (__init__ "cloud" "region" verify_off false None None, mkWorld [] [])
  = (Raise (KeyError "cacert"),
     (__init__ "cloud" "region" verify_off false None None, mkWorld [] [])).
Proof. vm_compute. reflexivity. Qed.

(** C4 (amended): on a config that has a [verify] and a [cacert] entry (and
    a [key] entry whenever its [cert] is truthy) the method does not raise;
    the effective verify value is [cacert] when both are truthy and the raw
    [verify] flag otherwise, and in that other branch one warning is emitted
    exactly when [cacert] is truthy. *)
Theorem verify_args_verify_component (self : CloudConfig) (w : world) (v c : value) :
  config self !! "verify" = Some v →
  config self !! "cacert" = Some c →
  (truthy (dict_get (config self) "cert" VNone) = true → is_Some (config self !! "key")) →
  ∃ cert,
    get_requests_verify_args (self, w)
    = (Return (if truthy v && truthy c then c else v, cert),
       (self, if negb (truthy v) && truthy c then warned self w else w))
    ∧ (truthy v = true → truthy c = true →
       get_requests_verify_args (self, w) = (Return (c, cert), (self, w)))
    ∧ (truthy v = false → truthy c = true →
       get_requests_verify_args (self, w) = (Return (v, cert), (self, warned self w)))
    ∧ (truthy c = false →
       get_requests_verify_args (self, w) = (Return (v, cert), (self, w)))
    ∧ (config self !! "cert" = None → cert = VNone).
Proof.
  intros Hv Hc Hkey. eexists.
  rewrite (get_requests_verify_args_ok self w v c Hv Hc Hkey).
  split; [reflexivity|]. split; [|split; [|split]].
  - intros -> ->. reflexivity.
  - intros -> ->. reflexivity.
  - intros ->. rewrite !andb_false_r. reflexivity.
  - intros Hcert. unfold dict_get. rewrite Hcert. reflexivity.
Qed.

Lemma verify_args_verify_component_witness :
  get_requests_verify_args
    (__init__ "cloud" "region" scenario_verify_on false None None, mkWorld [] [])
  = (Return (VStr "/ca.pem", VNone),
     (__init__ "cloud" "region" scenario_verify_on false None None, mkWorld [] []))
  ∧ get_requests_verify_args
    (__init__ "cloud" "region" scenario_verify_off false None None, mkWorld [] [])
  = (Return (VBool false, VNone),
     (__init__ "cloud" "region" scenario_verify_off false None None,
      mkWorld [] [Warn (cacert_warning "cloud")])).
Proof.
  split.
  - destruct (verify_args_verify_component
                (__init__ "cloud" "region" scenario_verify_on false None None)
                (mkWorld [] []) (VBool true) (VStr "/ca.pem"))
      as (cert & _ & Hon & _ & _ & Hcert).
    + vm_compute; reflexivity.
    + vm_compute; reflexivity.
    + vm_compute; discriminate.
    + rewrite <- (Hcert ltac:(vm_compute; reflexivity)). apply Hon; reflexivity.
  - destruct (verify_args_verify_component
                (__init__ "cloud" "region" scenario_verify_off false None None)
                (mkWorld [] []) (VBool false) (VStr "/ca.pem"))
      as (cert & _ & _ & Hoff & _ & Hcert).
    + vm_compute; reflexivity.
    + vm_compute; reflexivity.
    + vm_compute; discriminate.
    + rewrite <- (Hcert ltac:(vm_compute; reflexivity)). apply Hoff; reflexivity.
Defined.

(** A configured [cert] with no [key] entry: [config['key']] fails. *)
Lemma verify_args_raise_without_key :
  get_requests_verify_args
    (__init__ "cloud" "region" cert_without_key false None None, mkWorld [] [])
  = (Raise (KeyError "key"),
     (__init__ "cloud" "region" cert_without_key false None None, mkWorld [] [])).
Proof. vm_compute. reflexivity. Qed.

(** C5 (amended): on a config that has a [verify] and a [cacert] entry, a
    truthy [cert] is paired with [key] when the config has a truthy [key]
    entry and is returned alone when the config has a falsy [key] entry; a
    missing [cert] yields [None] and a falsy one is returned as it is. *)
Theorem verify_args_cert_component (self : CloudConfig) (w : world) (v c : value) :
  config self !! "verify" = Some v →
  config self !! "cacert" = Some c →
  let verify := if truthy v && truthy c then c else v in
  (∀ cert k, config self !! "cert" = Some cert → truthy cert = true →
             config self !! "key" = Some k → truthy k = true →
             (get_requests_verify_args (self, w)).1 = Return (verify, VTuple [cert; k]))
  ∧ (∀ cert k, config self !! "cert" = Some cert → truthy cert = true →
               config self !! "key" = Some k → truthy k = false →
               (get_requests_verify_args (self, w)).1 = Return (verify, cert))
  ∧ (config self !! "cert" = None →
     (get_requests_verify_args (self, w)).1 = Return (verify, VNone))
  ∧ (∀ cert, config self !! "cert" = Some cert → truthy cert = false →
             (get_requests_verify_args (self, w)).1 = Return (verify, cert)).
Proof.
  intros Hv Hc verify. subst verify.
  split; [|split; [|split]].
  - intros cert k Hcert Tcert Hk Tk.
    rewrite (get_requests_verify_args_ok self w v c Hv Hc); simpl.
    + unfold dict_get. by rewrite Hcert, Hk, Tcert, Tk.
    + eauto.
  - intros cert k Hcert Tcert Hk Tk.
    rewrite (get_requests_verify_args_ok self w v c Hv Hc); simpl.
    + unfold dict_get. by rewrite Hcert, Hk, Tcert, Tk.
    + eauto.
  - intros Hcert.
    rewrite (get_requests_verify_args_ok self w v c Hv Hc); simpl.
    + unfold dict_get. by rewrite Hcert.
    + unfold dict_get. rewrite Hcert. discriminate.
  - intros cert Hcert Tcert.
    rewrite (get_requests_verify_args_ok self w v c Hv Hc); simpl.
    + unfold dict_get. by rewrite Hcert, Tcert.
    + unfold dict_get. rewrite Hcert, Tcert. discriminate.
Qed.

Lemma verify_args_cert_component_witness :
  (get_requests_verify_args
     (__init__ "cloud" "region" cert_with_key false None None, mkWorld [] [])).1
  = Return (VBool true, VTuple [VStr "/c.pem"; VStr "/k.pem"]).
Proof.
  apply (proj1 (verify_args_cert_component
           (__init__ "cloud" "region" cert_with_key false None None)
           (mkWorld [] []) (VBool true) VNone
           ltac:(vm_compute; reflexivity) ltac:(vm_compute; reflexivity))
         (VStr "/c.pem") (VStr "/k.pem")).
  - vm_compute; reflexivity.
  - vm_compute; reflexivity.
  - vm_compute; reflexivity.
  - vm_compute; reflexivity.
Defined.

(** ** Session acquisition *)

(** Computing the TLS arguments never touches the object nor constructs a
    Session. *)
Lemma get_requests_verify_args_frame (self : CloudConfig) (w : world) :
  (get_requests_verify_args (self, w)).2.1 = self
  ∧ sessions (get_requests_verify_args (self, w)).2.2 = sessions w.
Proof.
  unfold get_requests_verify_args. run.
  destruct (config self !! "verify") as [v|]; simpl; [|done].
  destruct (truthy v); simpl;
    (destruct (config self !! "cacert") as [c|]; simpl; [|done]);
    try (destruct (truthy c); simpl);
    (destruct (config self !! "cert") as [cert|]; simpl; [|done]);
    (destruct (truthy cert); simpl; [|done]);
    (destruct (config self !! "key") as [k|]; simpl; [|done]);
    destruct (truthy k); simpl; done.
Qed.

Section SessionFacts.

Variable Session_init : AuthPlugin -> value -> value -> value -> option exn.

Lemma get_session_memoized (self : CloudConfig) (w : world) (s : Session) :
  _keystone_session self = Some s →
  get_session Session_init (self, w) = (Return s, (self, w)).
Proof. intros Hs. unfold get_session. run. by rewrite Hs. Qed.

Lemma get_session_no_auth (self : CloudConfig) (w : world) :
  _auth self = None → _keystone_session self = None →
  get_session Session_init (self, w) = (Raise auth_problem, (self, w)).
Proof. intros Ha Hs. unfold get_session. run. by rewrite Hs, Ha. Qed.

(** A call that raises has constructed nothing and leaves the object as it
    found it. *)
Lemma get_session_raise_frame (self : CloudConfig) (w : world) (e : exn) (st' : state) :
  get_session Session_init (self, w) = (Raise e, st') →
  st'.1 = self ∧ sessions st'.2 = sessions w.
Proof.
  unfold get_session. unfold bind at 1. unfold this at 1. simpl.
  destruct (_keystone_session self) as [s|]; [discriminate|].
  destruct (_auth self) as [auth|]; [|by intros [= _ <-]].
  unfold bind at 1.
  pose proof (get_requests_verify_args_frame self w) as [Hself Hsess].
  destruct (get_requests_verify_args (self, w)) as [[[verify cert]|e'] [self1 w1]];
    simpl in Hself, Hsess; subst self1; [|by intros [= _ <-]].
  unfold Session_new. run. destruct (truthy verify); simpl;
    (destruct (config self !! "api_timeout") as [t|]; simpl; [|by intros [= _ <-]]);
    (destruct (Session_init auth verify cert t); simpl; [|discriminate]);
    by intros [= _ <-].
Qed.

(** The Session a first successful call constructs, and the world it leaves. *)
Lemma get_session_first (self : CloudConfig) (w : world) (auth : AuthPlugin)
    (v c t : value) :
  _auth self = Some auth → _keystone_session self = None →
  config self !! "verify" = Some v →
  config self !! "cacert" = Some c →
  (truthy (dict_get (config self) "cert" VNone) = true → is_Some (config self !! "key")) →
  config self !! "api_timeout" = Some t →
  let verify := if truthy v && truthy c then c else v in
  let cert := let cert := dict_get (config self) "cert" VNone in
              let key := dict_get (config self) "key" VNone in
              if truthy cert && truthy key then VTuple [cert; key] else cert in
  Session_init auth verify cert t = None →
  ∃ tr,
    let s := mkSession (length (sessions w)) auth verify cert t in
    get_session Session_init (self, w)
    = (Return s, (with_session self s, {| sessions := sessions w ++ [s]; trace := tr |})).
Proof.
  intros Ha Hs Hv Hc Hkey Ht verify cert Hinit. unfold get_session.
  unfold bind at 1. unfold this at 1. simpl. rewrite Hs, Ha.
  unfold bind at 1. rewrite (get_requests_verify_args_ok self w v c Hv Hc Hkey).
  cbv zeta. fold verify. fold cert. unfold Session_new. run. rewrite Ht. simpl.
  destruct (truthy verify); simpl; rewrite Hinit;
    destruct (negb (truthy v) && truthy c); simpl; eauto.
Qed.

(** When the constructor raises, so does the call; nothing is memoised. *)
Lemma get_session_constructor_raises (self : CloudConfig) (w : world)
    (auth : AuthPlugin) (v c t : value) (e : exn) :
  _auth self = Some auth → _keystone_session self = None →
  config self !! "verify" = Some v →
  config self !! "cacert" = Some c →
  (truthy (dict_get (config self) "cert" VNone) = true → is_Some (config self !! "key")) →
  config self !! "api_timeout" = Some t →
  let verify := if truthy v && truthy c then c else v in
  let cert := let cert := dict_get (config self) "cert" VNone in
              let key := dict_get (config self) "key" VNone in
              if truthy cert && truthy key then VTuple [cert; key] else cert in
  Session_init auth verify cert t = Some e →
  ∃ tr,
    get_session Session_init (self, w)
    = (Raise e, (self, {| sessions := sessions w; trace := tr |})).
Proof.
  intros Ha Hs Hv Hc Hkey Ht verify cert Hinit. unfold get_session.
  unfold bind at 1. unfold this at 1. simpl. rewrite Hs, Ha.
  unfold bind at 1. rewrite (get_requests_verify_args_ok self w v c Hv Hc Hkey).
  cbv zeta. fold verify. fold cert. unfold Session_new. run. rewrite Ht. simpl.
  destruct (truthy verify); simpl; rewrite Hinit;
    destruct (negb (truthy v) && truthy c); simpl; eauto.
Qed.

End SessionFacts.

(** With an auth plugin bound but an empty config the first call fails on
    [config['verify']], even with a constructor that accepts every argument:
    no Session is constructed and none is memoised. *)
Lemma get_session_raises_on_empty_config :
  get_session accept_all (auth_only, mkWorld [] [])
  = (Raise (KeyError "verify"), (auth_only, mkWorld [] []))
  ∧ _keystone_session auth_only = None.
Proof. split; vm_compute; reflexivity. Qed.

(** C2 (amended): a new profile has no Session; a call that raises leaves it
    so and constructs none.  With an auth plugin bound and the entries
    [verify], [cacert] and [api_timeout] in the config (and [key] when [cert]
    is truthy): if the Session constructor accepts the arguments, the first
    call constructs exactly one Session, made of the plugin, the TLS
    arguments and the timeout, and memoises it, and the next call, and any
    call on an object holding that Session, whatever its config and plugin,
    returns the very same Session and changes nothing; if the constructor
    raises, the call raises the same exception, nothing is constructed or
    memoised, and the object is as before. *)
Theorem get_session_memoizes
    (Session_init : AuthPlugin -> value -> value -> value -> option exn) :
  (∀ n r c f a o, _keystone_session (__init__ n r c f a o) = None)
  ∧ (∀ self w e st', get_session Session_init (self, w) = (Raise e, st') →
       st'.1 = self ∧ sessions st'.2 = sessions w)
  ∧ (∀ (self : CloudConfig) (w : world) (auth : AuthPlugin) (v c t : value),
       _auth self = Some auth → _keystone_session self = None →
       config self !! "verify" = Some v →
       config self !! "cacert" = Some c →
       (truthy (dict_get (config self) "cert" VNone) = true →
        is_Some (config self !! "key")) →
       config self !! "api_timeout" = Some t →
       let verify := if truthy v && truthy c then c else v in
       let cert := let cert := dict_get (config self) "cert" VNone in
                   let key := dict_get (config self) "key" VNone in
                   if truthy cert && truthy key then VTuple [cert; key] else cert in
       (Session_init auth verify cert t = None →
        ∃ s w',
          get_session Session_init (self, w) = (Return s, (with_session self s, w'))
          ∧ sessions w' = (sessions w ++ [s])%list
          ∧ s = mkSession (List.length (sessions w)) auth verify cert t
          ∧ _keystone_session (with_session self s) = Some s
          ∧ get_session Session_init (with_session self s, w')
            = (Return s, (with_session self s, w'))
          ∧ (∀ Session_init' self' w'', _keystone_session self' = Some s →
               get_session Session_init' (self', w'') = (Return s, (self', w''))))
       ∧ (∀ e, Session_init auth verify cert t = Some e →
            ∃ w', get_session Session_init (self, w) = (Raise e, (self, w'))
                  ∧ sessions w' = sessions w)).
Proof.
  split; [done|]. split; [apply get_session_raise_frame|].
  intros self w auth v c t Ha Hs Hv Hc Hkey Ht verify cert. split.
  - intros Hinit.
    destruct (get_session_first Session_init self w auth v c t Ha Hs Hv Hc Hkey Ht Hinit)
      as (tr & Hfirst).
    cbv zeta in Hfirst. eexists _, _. split; [exact Hfirst|]. simpl.
    repeat split; auto using get_session_memoized.
  - intros e Hinit.
    destruct (get_session_constructor_raises Session_init self w auth v c t e
                Ha Hs Hv Hc Hkey Ht Hinit) as (tr & Hraise).
    eexists. split; [exact Hraise|done].
Qed.

Lemma get_session_memoizes_witness :
  (∃ s w',
    get_session numeric_timeout
      (__init__ "cloud" "region" session_ready false (Some (AuthObj 0)) None,
       mkWorld [] [])
    = (Return s,
       (with_session
          (__init__ "cloud" "region" session_ready false (Some (AuthObj 0)) None) s, w'))
    ∧ sessions w' = [s]
    ∧ get_session numeric_timeout
        (with_session
           (__init__ "cloud" "region" session_ready false (Some (AuthObj 0)) None) s, w')
      = (Return s,
         (with_session
            (__init__ "cloud" "region" session_ready false (Some (AuthObj 0)) None) s, w')))
  ∧ (∃ w',
       get_session numeric_timeout
         (__init__ "cloud" "region" text_timeout false (Some (AuthObj 0)) None,
          mkWorld [] [])
       = (Raise (ExternalError "could not convert string to float"),
          (__init__ "cloud" "region" text_timeout false (Some (AuthObj 0)) None, w'))
       ∧ sessions w' = []).
Proof.
  split.
  - destruct (proj2 (proj2 (get_session_memoizes numeric_timeout))
                (__init__ "cloud" "region" session_ready false (Some (AuthObj 0)) None)
                (mkWorld [] []) (AuthObj 0) (VBool true) VNone (VInt 60))
      as [Hok _].
    + reflexivity.
    + reflexivity.
    + vm_compute; reflexivity.
    + vm_compute; reflexivity.
    + vm_compute; discriminate.
    + vm_compute; reflexivity.
    + destruct (Hok eq_refl) as (s & w' & H1 & H2 & _ & _ & H3 & _).
      exists s, w'. split; [exact H1|]. split; [exact H2|exact H3].
  - destruct (proj2 (proj2 (get_session_memoizes numeric_timeout))
                (__init__ "cloud" "region" text_timeout false (Some (AuthObj 0)) None)
                (mkWorld [] []) (AuthObj 0) (VBool true) VNone (VStr "abc"))
      as [_ Hbad].
    + reflexivity.
    + reflexivity.
    + vm_compute; reflexivity.
    + vm_compute; reflexivity.
    + vm_compute; discriminate.
    + vm_compute; reflexivity.
    + exact (Hbad _ eq_refl).
Defined.

(** ** Calls on a profile without an auth plugin *)

Section NoAuth.

Variable Session_init : AuthPlugin -> value -> value -> value -> option exn.
Variable Session_get_endpoint : list event -> Session -> endpoint_query -> result value.

Lemma get_session_endpoint_no_auth (self : CloudConfig) (w : world) (k : string) :
  _auth self = None → _keystone_session self = None →
  truthy (get_endpoint self k) = false →
  get_session_endpoint Session_init Session_get_endpoint k (self, w) = (Raise auth_problem, (self, w)).
Proof.
  intros Ha Hs Hk. unfold get_session_endpoint.
  unfold bind at 1. unfold this at 1. simpl. rewrite Hk.
  unfold bind. by rewrite (get_session_no_auth Session_init self w Ha Hs).
Qed.

Lemma perform_no_auth (self : CloudConfig) (w : world) (c : call) :
  _auth self = None → _keystone_session self = None →
  (perform Session_init Session_get_endpoint c (self, w)).1 = self.
Proof.
  intros Ha Hs. destruct c as [|k|]; simpl.
  - by rewrite get_session_no_auth.
  - destruct (truthy (get_endpoint self k)) eqn:Hk.
    + unfold get_session_endpoint. unfold bind at 1. unfold this at 1. simpl.
      by rewrite Hk.
    + by rewrite get_session_endpoint_no_auth.
  - apply get_requests_verify_args_frame.
Qed.

Lemma after_no_auth (self : CloudConfig) (calls : list call) (w : world) :
  _auth self = None → _keystone_session self = None →
  (after Session_init Session_get_endpoint calls (self, w)).1 = self.
Proof.
  intros Ha Hs. revert w. induction calls as [|c calls IH]; intros w; [done|].
  unfold after. simpl. fold (after Session_init Session_get_endpoint calls (perform Session_init Session_get_endpoint c (self, w))).
  pose proof (perform_no_auth self w c Ha Hs) as Hc.
  destruct (perform Session_init Session_get_endpoint c (self, w)) as [self1 w1]. simpl in Hc. subst self1.
  apply IH.
Qed.

(** C3: on a profile constructed without an auth plugin, after any calls
    whatsoever the session accessor raises the configuration error
    "Problem with auth parameters" and leaves the object and the world as
    they were - the Session field stays absent, so the next call starts
    over - and the endpoint accessor, asked for a service that has no
    endpoint override configured, raises that same error. *)
Theorem no_auth_every_call_raises (n r : string) (c : gmap string value)
    (f : bool) (o : option OpenStackConfig) (w : world) (calls : list call) :
  let self := __init__ n r c f None o in
  let st := after Session_init Session_get_endpoint calls (self, w) in
  _keystone_session st.1 = None
  ∧ get_session Session_init st = (Raise (OpenStackConfigException "Problem with auth parameters"), st)
  ∧ (∀ service_key, c !! (service_key ++ "_endpoint") = None →
       get_session_endpoint Session_init Session_get_endpoint service_key st
       = (Raise (OpenStackConfigException "Problem with auth parameters"), st)).
Proof.
  intros self st.
  assert (Hst : st.1 = self) by (by apply after_no_auth).
  destruct st as [self1 w1]. simpl in Hst. subst self1.
  split; [done|]. split.
  - by apply get_session_no_auth.
  - intros k Hk. apply get_session_endpoint_no_auth; [done..|].
    unfold get_endpoint, dict_get. simpl. by rewrite Hk.
Qed.

End NoAuth.

Lemma no_auth_every_call_raises_witness :
  get_session_endpoint numeric_timeout silent_catalog "compute"
    (after numeric_timeout silent_catalog
       [CallGetSession; CallGetSessionEndpoint "network"]
       (__init__ "cloud" "region" session_ready false None None, mkWorld [] []))
  = (Raise (OpenStackConfigException "Problem with auth parameters"),
     after numeric_timeout silent_catalog
       [CallGetSession; CallGetSessionEndpoint "network"]
       (__init__ "cloud" "region" session_ready false None None, mkWorld [] [])).
Proof.
  apply (no_auth_every_call_raises numeric_timeout silent_catalog
           "cloud" "region" session_ready false None (mkWorld [] [])
           [CallGetSession; CallGetSessionEndpoint "network"]).
  vm_compute; reflexivity.
Defined.

(** ** Endpoint overrides *)

(** C10: an endpoint override is returned, without any Session, only when
    its value is truthy.  A falsy override is passed over: the accessor then
    acquires the Session and puts the catalogue query to it, so that on a
    profile with no auth plugin (and no Session yet) it raises the
    configuration error. *)
Theorem falsy_endpoint_override_needs_session
    (Session_init : AuthPlugin -> value -> value -> value -> option exn)
    (Session_get_endpoint : list event -> Session -> endpoint_query -> result value)
    (self : CloudConfig) (w : world) (service_key : string) (v : value) :
  config self !! (service_key ++ "_endpoint") = Some v →
  (truthy v = true →
     get_session_endpoint Session_init Session_get_endpoint service_key (self, w)
     = (Return v, (self, w)))
  ∧ (truthy v = false →
       get_session_endpoint Session_init Session_get_endpoint service_key (self, w)
       = (session <- get_session Session_init ;;
          Session_query Session_get_endpoint session
            (catalog_query self service_key)) (self, w)
       ∧ (∀ s, _keystone_session self = Some s →
            get_session_endpoint Session_init Session_get_endpoint service_key (self, w)
            = (Session_get_endpoint (trace w) s (catalog_query self service_key),
               (self,
                {| sessions := sessions w;
                   trace := trace w
                            ++ [EndpointQueried s (catalog_query self service_key)] |})))
       ∧ (_auth self = None → _keystone_session self = None →
            get_session_endpoint Session_init Session_get_endpoint service_key (self, w)
            = (Raise (OpenStackConfigException "Problem with auth parameters"),
               (self, w)))).
Proof.
  intros Hv.
  assert (Hget : get_endpoint self service_key = v)
    by (unfold get_endpoint, dict_get; by rewrite Hv).
  split.
  - intros Tv. unfold get_session_endpoint. unfold bind at 1. unfold this at 1.
    simpl. by rewrite Hget, Tv.
  - intros Tv.
    assert (Hrun : get_session_endpoint Session_init Session_get_endpoint service_key (self, w)
       = (session <- get_session Session_init ;;
          Session_query Session_get_endpoint session
            (catalog_query self service_key)) (self, w)).
    { unfold get_session_endpoint. unfold bind at 1. unfold this at 1.
      simpl. rewrite Hget, Tv. unfold bind, catalog_query.
      destruct (get_session Session_init (self, w)) as [[s|e] st]; [|done].
      by destruct (String.eqb service_key "identity"). }
    split; [exact Hrun|]. split.
    + intros s Hs. rewrite Hrun. unfold bind. by rewrite (get_session_memoized Session_init self w s Hs).
    + intros Ha Hs. rewrite Hrun. unfold bind. by rewrite (get_session_no_auth Session_init self w Ha Hs).
Qed.

Lemma falsy_endpoint_override_needs_session_witness :
  get_session_endpoint numeric_timeout net_catalog
    "compute" (__init__ "cloud" "region" empty_override false None None, mkWorld [] [])
  = (Raise (OpenStackConfigException "Problem with auth parameters"),
     (__init__ "cloud" "region" empty_override false None None, mkWorld [] [])).
Proof.
  apply (falsy_endpoint_override_needs_session numeric_timeout net_catalog
           (__init__ "cloud" "region" empty_override false None None)
           (mkWorld [] []) "compute" (VStr EmptyString)).
  - vm_compute; reflexivity.
  - vm_compute; reflexivity.
  - reflexivity.
  - reflexivity.
Defined.

(** ** Legacy client bridge *)

Section LegacyClient.

Variable Session_init : AuthPlugin -> value -> value -> value -> option exn.
Variable Session_get_endpoint : list event -> Session -> endpoint_query -> result value.
Variable Session_get_token : Session -> result value.
Variable strip_version : value -> result (value * value).
Variable Client : Type.
Variable client_class : list pyobj -> gmap string pyobj -> result Client.

(** C9: when the bridge is asked to pass the version and the service is
    [network], the endpoint and the Session having been obtained, the
    constructor is called with exactly one positional argument: ["2.0"]
    if the resolved API version is the string ["2"], and the resolved
    version itself in every other case. *)
Theorem legacy_client_network_version (self : CloudConfig) (w : world)
    (interface_key : option string) (kwargs : gmap string pyobj)
    (endpoint : value) (st1 st2 : state) (session : Session) :
  get_session_endpoint Session_init Session_get_endpoint "network" (self, w) = (Return endpoint, st1) →
  get_session Session_init st1 = (Return session, st2) →
  let version := get_api_version self "network" in
  let kw := plain_kwargs self "network" interface_key kwargs session in
  (version = VStr "2" →
     get_legacy_client Session_init Session_get_endpoint Session_get_token strip_version
       Client client_class "network" interface_key true kwargs (self, w)
     = (constructed (client_class [OVal (VStr "2.0")] kw), st2))
  ∧ (version ≠ VStr "2" →
     get_legacy_client Session_init Session_get_endpoint Session_get_token strip_version
       Client client_class "network" interface_key true kwargs (self, w)
     = (constructed (client_class [OVal version] kw), st2)).
Proof.
  intros Hep Hs version kw.
  assert (Hrun : get_legacy_client Session_init Session_get_endpoint Session_get_token strip_version
       Client client_class "network" interface_key true kwargs (self, w)
     = (constructed
          (client_class
             [OVal (if py_eq version (VStr "2") then VStr "2.0" else version)] kw),
        st2)).
  { unfold get_legacy_client. simpl.
    unfold bind at 1. unfold this at 1. simpl.
    unfold bind at 1. rewrite Hep.
    unfold bind at 1. rewrite Hs.
    run. fold version. fold (plain_kwargs self "network" interface_key kwargs session).
    fold kw. by destruct (client_class _ kw). }
  split.
  - intros Hv. rewrite Hrun. by rewrite (proj2 (py_eq_str version "2") Hv).
  - intros Hv. rewrite Hrun.
    destruct (py_eq version (VStr "2")) eqn:E; [|done].
    by apply py_eq_str in E.
Qed.

End LegacyClient.

Lemma legacy_client_network_version_witness :
  get_legacy_client numeric_timeout net_catalog no_token no_strip _ record_call
    "network" None true ∅ (net_profile, mkWorld [] [])
  = (Return (Some ([OVal (VStr "2.0")],
                   plain_kwargs net_profile "network" None ∅ net_session)),
     net_state [plain_query "network"]).
Proof.
  apply (proj1 (legacy_client_network_version numeric_timeout net_catalog no_token no_strip _ record_call
                  net_profile (mkWorld [] []) None ∅
                  (VStr "https://network.example")
                  (net_state [plain_query "network"]) (net_state [plain_query "network"])
                  net_session
                  ltac:(vm_compute; reflexivity) ltac:(vm_compute; reflexivity))).
  vm_compute; reflexivity.
Defined.

(** * Further properties of the module *)

(** ** Strings *)

Lemma endswith_refl (s : string) : endswith s s = true.
Proof. destruct s; cbn [endswith]; by rewrite String.eqb_refl. Qed.

Lemma endswith_app (s suffix : string) : endswith (s ++ suffix) suffix = true.
Proof.
  induction s as [|c s IH].
  - apply endswith_refl.
  - change (endswith (String c (s ++ suffix)) suffix = true).
    cbn [endswith]. rewrite IH. apply orb_true_r.
Qed.

Lemma endswith_inv (s suffix : string) :
  endswith s suffix = true → ∃ p, s = p ++ suffix.
Proof.
  induction s as [|c s IH]; cbn [endswith].
  - rewrite orb_false_r. intros <-%String.eqb_eq. by exists EmptyString.
  - intros [<-%String.eqb_eq | [p ->]%IH]%orb_true_iff.
    + by exists EmptyString.
    + by exists (String c p).
Qed.

Lemma split_nonempty (sep : ascii) (s : string) : split sep s ≠ [].
Proof.
  destruct s as [|c s]; simpl; [done|].
  destruct (Ascii.eqb c sep); [done|]. by destruct (split sep s).
Qed.

Lemma split_app_sep (sep : ascii) (s t : string) :
  split sep (s ++ String sep t) = (split sep s ++ split sep t)%list.
Proof.
  induction s as [|c s IH]; simpl.
  - by rewrite Ascii.eqb_refl.
  - destruct (Ascii.eqb c sep); [by rewrite IH|].
    rewrite IH. pose proof (split_nonempty sep s) as Hne.
    by destruct (split sep s).
Qed.

(** Joining what [split] produced gives the string back. *)
Lemma join_split (sep : ascii) (s : string) :
  join (String sep EmptyString) (split sep s) = s.
Proof.
  induction s as [|c s IH]; simpl; [done|].
  pose proof (split_nonempty sep s) as Hne.
  destruct (Ascii.eqb c sep) eqn:E.
  - apply Ascii.eqb_eq in E. subst c.
    destruct (split sep s) as [|w ws]; [done|]. simpl in *. by rewrite IH.
  - destruct (split sep s) as [|w ws]; [done|].
    destruct ws as [|x xs]; simpl in *; by rewrite <- IH.
Qed.

Lemma but_last_two_app {A} (l : list A) (a b : A) :
  but_last_two (l ++ [a; b]) = l.
Proof.
  unfold but_last_two. rewrite length_app. simpl.
  replace (List.length l + 2 - 2) with (List.length l) by lia.
  by rewrite take_app_length.
Qed.

Lemma append_length (s t : string) :
  String.length (s ++ t) = String.length s + String.length t.
Proof. induction s as [|c s IH]; simpl; [done|]. by rewrite IH. Qed.

(** Two strings with a common end are equal once the end is cut off. *)
Lemma append_inj_r (s s' t : string) : s ++ t = s' ++ t → s = s'.
Proof.
  revert s'. induction s as [|c s IH]; intros [|c' s'] Heq.
  - done.
  - apply (f_equal String.length) in Heq.
    rewrite !append_length in Heq. simpl in Heq. lia.
  - apply (f_equal String.length) in Heq.
    rewrite !append_length in Heq. simpl in Heq. lia.
  - change (String c (s ++ t) = String c' (s' ++ t)) in Heq.
    injection Heq as -> Heq. f_equal. by apply IH.
Qed.

(** When two strings are equal, of any two ends of them one ends the other. *)
Lemma append_eq_endswith (s s' a b : string) :
  s ++ a = s' ++ b → endswith a b = true ∨ endswith b a = true.
Proof.
  revert s'. induction s as [|c s IH]; intros [|c' s'] Heq.
  - change (a = b) in Heq. subst. left. apply endswith_refl.
  - change (a = String c' s' ++ b) in Heq. subst a. left. apply endswith_app.
  - change (String c s ++ a = b) in Heq. subst b. right. apply endswith_app.
  - change (String c (s ++ a) = String c' (s' ++ b)) in Heq.
    injection Heq as _ Heq. by eapply IH.
Qed.

Lemma endswith_app_l (p s suffix : string) :
  endswith s suffix = true → endswith (p ++ s) suffix = true.
Proof.
  intros Hs. induction p as [|c p IH]; [done|].
  change (endswith (String c (p ++ s)) suffix = true).
  cbn [endswith]. rewrite IH. apply orb_true_r.
Qed.

(** The service name cut out of a key made of a name and two more tokens. *)
Lemma service_name_of_key (s t a b : string) :
  split "_" t = [a; b] →
  join "_" (but_last_two (split "_" (s ++ String "_" t))) = s.
Proof.
  intros Ht. rewrite split_app_sep, Ht, but_last_two_app. apply join_split.
Qed.

(** ** Attribute resolver *)

(** X1: the resolver raises exactly when the requested key (less its [os_])
    is no key of the config although some config key, its dashes turned into
    underscores, equals it; the exception is then the [KeyError] of that
    key. *)
Theorem getattr_raises_iff (self : CloudConfig) (key : string) (e : exn) :
  let k := if startswith key "os_" then slice_from 3 key else key in
  __getattr__ self key = Raise e
  ↔ e = KeyError k ∧ config self !! k = None
    ∧ ∃ k', is_Some (config self !! k') ∧ replace "-" "_" k' = k.
Proof.
  intros k. unfold __getattr__. fold k. unfold getitem.
  destruct (bool_decide (k ∈ map (replace "-" "_") (keys (config self)))) eqn:E.
  - apply bool_decide_eq_true in E. apply elem_of_normalized_keys in E.
    destruct (config self !! k) as [v|]; split.
    + discriminate.
    + by intros (_ & ? & _).
    + intros [= <-]. auto.
    + by intros (-> & _ & _).
  - apply bool_decide_eq_false in E. rewrite elem_of_normalized_keys in E.
    split; [discriminate|]. by intros (_ & _ & ?).
Qed.

(** X2: on a config none of whose keys holds a dash the resolver never
    raises: it is [config.get(key, None)] for the requested key less its
    [os_]. *)
Theorem getattr_dash_free_config (self : CloudConfig) (key : string) :
  (∀ k', is_Some (config self !! k') → replace "-" "_" k' = k') →
  __getattr__ self key
  = Return (dict_get (config self)
              (if startswith key "os_" then slice_from 3 key else key) VNone).
Proof.
  intros Hfree. unfold __getattr__, getitem, dict_get.
  set (k := if startswith key "os_" then slice_from 3 key else key).
  destruct (bool_decide (k ∈ map (replace "-" "_") (keys (config self)))) eqn:E.
  - apply bool_decide_eq_true in E. apply elem_of_normalized_keys in E.
    destruct E as (k' & [v Hv] & Hk). rewrite Hfree in Hk by eauto. subst k'.
    by rewrite Hv.
  - apply bool_decide_eq_false in E. rewrite elem_of_normalized_keys in E.
    destruct (config self !! k) as [v|] eqn:Hv; [|done].
    exfalso. apply E. exists k. eauto.
Qed.

Lemma getattr_dash_free_config_witness :
  __getattr__ (__init__ "cloud" "region" scenario_services false None None)
    "os_compute_api_version"
  = Return (VStr "2").
Proof.
  rewrite (getattr_dash_free_config
             (__init__ "cloud" "region" scenario_services false None None)
             "os_compute_api_version").
  - vm_compute; reflexivity.
  - intros k' Hk. apply elem_of_keys in Hk. revert k' Hk.
    apply Forall_forall. vm_compute. repeat constructor.
Defined.

(** X3: the prefix [os_] is cut off once.  A key that does not itself begin
    with [os_] resolves alike with and without the prefix; and a request
    [os_k] is answered from [k] alone, so that it resolves to [None] when no
    config key normalises to [k] - a config key spelled [os_k] is not
    looked at. *)
Theorem getattr_os_alias (self : CloudConfig) (k : string) :
  (startswith k "os_" = false →
     __getattr__ self ("os_" ++ k) = __getattr__ self k)
  ∧ ((∀ k', is_Some (config self !! k') → replace "-" "_" k' ≠ k) →
     __getattr__ self ("os_" ++ k) = Return VNone).
Proof.
  assert (Hstrip :
    (if startswith ("os_" ++ k) "os_" then slice_from 3 ("os_" ++ k)
     else "os_" ++ k) = k).
  { change ("os_" ++ k) with (String "o" (String "s" (String "_" k))).
    unfold startswith. simpl. by destruct k. }
  split.
  - intros Hk. unfold __getattr__. cbv zeta. by rewrite Hstrip, Hk.
  - intros Hno. unfold __getattr__. cbv zeta. rewrite Hstrip.
    rewrite bool_decide_eq_false_2; [done|].
    rewrite elem_of_normalized_keys. intros (k' & Hin & Heq). by apply (Hno k').
Qed.

Lemma getattr_os_alias_witness :
  __getattr__ (__init__ "cloud" "region" underscored false None None) "os_foo_bar"
  = __getattr__ (__init__ "cloud" "region" underscored false None None) "foo_bar"
  ∧ __getattr__ (__init__ "cloud" "region" os_prefixed false None None) "os_foo"
    = Return VNone.
Proof.
  split.
  - apply (getattr_os_alias
             (__init__ "cloud" "region" underscored false None None) "foo_bar").
    vm_compute; reflexivity.
  - apply (getattr_os_alias
             (__init__ "cloud" "region" os_prefixed false None None) "foo").
    intros k' Hk. apply elem_of_keys in Hk. revert k' Hk.
    apply Forall_forall. vm_compute. repeat constructor. discriminate.
Defined.

(** X4: iterating a profile yields each config key once and nothing else,
    and every key it yields that holds no dash and does not begin with [os_]
    resolves, as an attribute, to the value the config stores under it. *)
Theorem iter_keys_resolve (self : CloudConfig) :
  NoDup (__iter__ self)
  ∧ (∀ k, k ∈ __iter__ self ↔ is_Some (config self !! k))
  ∧ (∀ k, k ∈ __iter__ self → startswith k "os_" = false →
          replace "-" "_" k = k →
          ∃ v, config self !! k = Some v ∧ __getattr__ self k = Return v).
Proof.
  split; [apply NoDup_fst_map_to_list|]. split; [apply elem_of_keys|].
  intros k [v Hv]%elem_of_keys Hos Hdash. exists v. split; [done|].
  unfold __getattr__. rewrite Hos. rewrite bool_decide_eq_true_2.
  - unfold getitem. by rewrite Hv.
  - apply elem_of_normalized_keys. exists k. eauto.
Qed.

Lemma iter_keys_resolve_witness :
  ∃ v, config (__init__ "cloud" "region" scenario_services false None None)
         !! "other_key" = Some v
       ∧ __getattr__ (__init__ "cloud" "region" scenario_services false None None)
           "other_key" = Return v.
Proof.
  apply (proj2 (proj2 (iter_keys_resolve
           (__init__ "cloud" "region" scenario_services false None None)))).
  - apply elem_of_keys. vm_compute. eexists; reflexivity.
  - vm_compute; reflexivity.
  - vm_compute; reflexivity.
Defined.

(** ** Service discovery *)

Lemma elem_of_get_services (self : CloudConfig) (x : string) :
  x ∈ get_services self
  ↔ ∃ key, is_Some (config self !! key) ∧ is_service_key key = true
           ∧ x = join "_" (but_last_two (split "_" key)).
Proof.
  unfold get_services, services_of.
  rewrite elem_of_list_to_set, list_elem_of_fmap. split.
  - intros (key & -> & [Hp Hin]%list_elem_of_filter). exists key.
    by rewrite <- elem_of_keys.
  - intros (key & Hin & Hp & ->). exists key. split; [done|].
    apply list_elem_of_filter. by rewrite elem_of_keys.
Qed.

Lemma configured_service_discovered (self : CloudConfig) (s : string) :
  is_Some (config self !! (s ++ "_api_version"))
  ∨ is_Some (config self !! (s ++ "_service_type"))
  ∨ is_Some (config self !! (s ++ "_service_name")) →
  s ∈ get_services self.
Proof.
  intros H. apply elem_of_get_services.
  destruct H as [H|[H|H]].
  - exists (s ++ "_api_version"). split; [done|]. split.
    + unfold is_service_key. by rewrite endswith_app_l.
    + symmetry. by apply (service_name_of_key s "api_version" "api" "version").
  - exists (s ++ "_service_type"). split; [done|]. split.
    + unfold is_service_key. rewrite (endswith_app_l s _ "service_type") by done.
      by rewrite orb_true_r.
    + symmetry. by apply (service_name_of_key s "service_type" "service" "type").
  - exists (s ++ "_service_name"). split; [done|]. split.
    + unfold is_service_key. rewrite (endswith_app_l s _ "service_name") by done.
      by rewrite !orb_true_r.
    + symmetry. by apply (service_name_of_key s "service_name" "service" "name").
Qed.

(** X5: every service for which the config holds an API version, a service
    type or a service name - the keys the accessors of those read - is among
    the services discovered. *)
Theorem get_services_complete (self : CloudConfig) (s : string) :
  is_Some (config self !! (s ++ "_api_version"))
  ∨ is_Some (config self !! (s ++ "_service_type"))
  ∨ is_Some (config self !! (s ++ "_service_name")) →
  s ∈ get_services self.
Proof. apply configured_service_discovered. Qed.

Lemma get_services_complete_witness :
  "network" ∈ get_services (__init__ "cloud" "region" scenario_services false None None).
Proof.
  apply get_services_complete. right. left. vm_compute. eexists; reflexivity.
Defined.

(** X6: when every config key that passes the suffix test carries the
    underscore before the suffix, the services discovered are exactly those
    with a configured API version, service type or service name. *)
Theorem get_services_exact (self : CloudConfig) (x : string) :
  (∀ k, is_Some (config self !! k) → is_service_key k = true →
        is_service_key_spec k = true) →
  x ∈ get_services self
  ↔ is_Some (config self !! (x ++ "_api_version"))
    ∨ is_Some (config self !! (x ++ "_service_type"))
    ∨ is_Some (config self !! (x ++ "_service_name")).
Proof.
  intros Hwf. split; [|apply configured_service_discovered].
  intros (key & Hin & Hp & ->)%elem_of_get_services.
  specialize (Hwf key Hin Hp). unfold is_service_key_spec in Hwf.
  apply orb_true_iff in Hwf as [Hwf|Hwf]; [apply orb_true_iff in Hwf as [Hwf|Hwf]|];
    apply endswith_inv in Hwf as [p ->].
  - left. by rewrite (service_name_of_key p "api_version" "api" "version").
  - right; left. by rewrite (service_name_of_key p "service_type" "service" "type").
  - right; right. by rewrite (service_name_of_key p "service_name" "service" "name").
Qed.

Lemma get_services_exact_witness :
  "compute" ∈ get_services (__init__ "cloud" "region" scenario_services false None None)
  ↔ is_Some (scenario_services !! "compute_api_version")
    ∨ is_Some (scenario_services !! "compute_service_type")
    ∨ is_Some (scenario_services !! "compute_service_name").
Proof.
  apply (get_services_exact
           (__init__ "cloud" "region" scenario_services false None None) "compute").
  intros k Hk. apply elem_of_keys in Hk.
  remember (keys (config (__init__ "cloud" "region" scenario_services false None None)))
    as l eqn:El.
  vm_compute in El. subst l.
  repeat (apply elem_of_cons in Hk as [->|Hk]; [by vm_compute|]).
  by apply elem_of_nil in Hk.
Defined.

(** ** Session construction *)

Section SessionConstruction.

Variable Session_init : AuthPlugin -> value -> value -> value -> option exn.

(** X7: with an auth plugin bound and no Session yet, the session accessor
    hands the constructor the plugin, the two values
    [get_requests_verify_args] returned and [config['api_timeout']], after
    logging the debug note exactly when the verify value is falsy and
    squelching the warnings with [insecure_requests = not verify].  If the
    constructor accepts them, the Session made of them is returned and
    memoised; if it raises, the accessor raises the same exception and no
    Session is constructed or memoised. *)
Theorem get_session_uses_verify_args (self : CloudConfig) (w : world)
    (auth : AuthPlugin) (verify cert t : value) (st1 : state) :
  _auth self = Some auth → _keystone_session self = None →
  get_requests_verify_args (self, w) = (Return (verify, cert), st1) →
  config self !! "api_timeout" = Some t →
  let s := mkSession (List.length (sessions w)) auth verify cert t in
  (Session_init auth verify cert t = None →
     get_session Session_init (self, w)
     = (Return s,
        (with_session self s,
         {| sessions := sessions w ++ [s];
            trace := trace st1.2 ++ session_events self verify |})))
  ∧ (∀ e, Session_init auth verify cert t = Some e →
       get_session Session_init (self, w)
       = (Raise e,
          (self, {| sessions := sessions w;
                    trace := trace st1.2 ++ session_events self verify |}))).
Proof.
  intros Ha Hs Hargs Ht s.
  pose proof (get_requests_verify_args_frame self w) as [Hself Hsess].
  rewrite Hargs in Hself, Hsess. simpl in Hself, Hsess.
  destruct st1 as [self1 w1]. simpl in *. subst self1.
  split; [intros Hinit | intros e Hinit];
    unfold get_session; unfold bind at 1; unfold this at 1; simpl; rewrite Hs, Ha;
    unfold bind at 1; rewrite Hargs; unfold Session_new; run; rewrite Ht; simpl;
    subst s; unfold session_events;
    destruct (truthy verify); run; rewrite Hinit; simpl;
    rewrite Hsess, <- ?app_assoc; reflexivity.
Qed.

(** X8: with an auth plugin bound and no Session yet, an exception of
    [get_requests_verify_args] passes through the session accessor
    unchanged; and when the config has no [api_timeout] entry the accessor
    raises [KeyError] only after the debug note and the squelch call have
    happened.  In both cases no Session is constructed or memoised. *)
Theorem get_session_propagates_errors (self : CloudConfig) (w : world)
    (auth : AuthPlugin) :
  _auth self = Some auth → _keystone_session self = None →
  (∀ e st1, get_requests_verify_args (self, w) = (Raise e, st1) →
            get_session Session_init (self, w) = (Raise e, st1)
            ∧ st1.1 = self ∧ sessions st1.2 = sessions w)
  ∧ (∀ verify cert st1,
       get_requests_verify_args (self, w) = (Return (verify, cert), st1) →
       config self !! "api_timeout" = None →
       get_session Session_init (self, w)
       = (Raise (KeyError "api_timeout"),
          (self, {| sessions := sessions w;
                    trace := trace st1.2 ++ session_events self verify |}))).
Proof.
  intros Ha Hs.
  pose proof (get_requests_verify_args_frame self w) as [Hself Hsess].
  split.
  - intros e st1 Hargs. rewrite Hargs in Hself, Hsess. split; [|done].
    unfold get_session. unfold bind at 1. unfold this at 1. simpl. rewrite Hs, Ha.
    unfold bind at 1. by rewrite Hargs.
  - intros verify cert st1 Hargs Ht. rewrite Hargs in Hself, Hsess.
    destruct st1 as [self1 w1]. simpl in *. subst self1.
    unfold get_session. unfold bind at 1. unfold this at 1. simpl. rewrite Hs, Ha.
    unfold bind at 1. rewrite Hargs. run. rewrite Ht. simpl.
    unfold session_events.
    destruct (truthy verify); run; rewrite Hsess, <- ?app_assoc; reflexivity.
Qed.

End SessionConstruction.

Lemma get_session_uses_verify_args_witness :
  get_session numeric_timeout
    (__init__ "cloud" "region" scenario_verify_off_timeout false (Some (AuthObj 3)) None,
     mkWorld [] [])
  = (Return (mkSession 0 (AuthObj 3) (VBool false) VNone (VInt 60)),
     (with_session
        (__init__ "cloud" "region" scenario_verify_off_timeout false
           (Some (AuthObj 3)) None)
        (mkSession 0 (AuthObj 3) (VBool false) VNone (VInt 60)),
      mkWorld [mkSession 0 (AuthObj 3) (VBool false) VNone (VInt 60)]
        [Warn (cacert_warning "cloud");
         LogDebug (ssl_debug_note "cloud" "region");
         SquelchWarnings true]))
  ∧ get_session numeric_timeout
      (__init__ "cloud" "region" text_timeout false (Some (AuthObj 3)) None,
       mkWorld [] [])
    = (Raise (ExternalError "could not convert string to float"),
       (__init__ "cloud" "region" text_timeout false (Some (AuthObj 3)) None,
        mkWorld [] [SquelchWarnings false])).
Proof.
  split.
  - apply (proj1 (get_session_uses_verify_args numeric_timeout
             (__init__ "cloud" "region" scenario_verify_off_timeout false
                (Some (AuthObj 3)) None)
             (mkWorld [] []) (AuthObj 3) (VBool false) VNone (VInt 60)
             (__init__ "cloud" "region" scenario_verify_off_timeout false
                (Some (AuthObj 3)) None,
              mkWorld [] [Warn (cacert_warning "cloud")])
             eq_refl eq_refl ltac:(vm_compute; reflexivity)
             ltac:(vm_compute; reflexivity))).
    reflexivity.
  - apply (proj2 (get_session_uses_verify_args numeric_timeout
             (__init__ "cloud" "region" text_timeout false (Some (AuthObj 3)) None)
             (mkWorld [] []) (AuthObj 3) (VBool true) VNone (VStr "abc")
             (__init__ "cloud" "region" text_timeout false (Some (AuthObj 3)) None,
              mkWorld [] [])
             eq_refl eq_refl ltac:(vm_compute; reflexivity)
             ltac:(vm_compute; reflexivity))).
    reflexivity.
Defined.

Lemma get_session_propagates_errors_witness :
  get_session numeric_timeout
    (__init__ "cloud" "region" scenario_verify_off false (Some (AuthObj 3)) None,
     mkWorld [] [])
  = (Raise (KeyError "api_timeout"),
     (__init__ "cloud" "region" scenario_verify_off false (Some (AuthObj 3)) None,
      mkWorld []
        [Warn (cacert_warning "cloud");
         LogDebug (ssl_debug_note "cloud" "region");
         SquelchWarnings true])).
Proof.
  apply (proj2 (get_session_propagates_errors numeric_timeout
           (__init__ "cloud" "region" scenario_verify_off false (Some (AuthObj 3)) None)
           (mkWorld [] []) (AuthObj 3) eq_refl eq_refl)
         (VBool false) VNone
         (__init__ "cloud" "region" scenario_verify_off false (Some (AuthObj 3)) None,
          mkWorld [] [Warn (cacert_warning "cloud")])).
  - vm_compute; reflexivity.
  - vm_compute; reflexivity.
Defined.

(** ** What a call may change *)

Lemma step_refl (st : state) : step st st.
Proof. by left. Qed.

Lemma step_trans (st1 st2 st3 : state) : step st1 st2 → step st2 st3 → step st1 st3.
Proof.
  intros [[H1 H1']|(Hn & s & H1 & H1')] [[H2 H2']|(Hn2 & s2 & H2 & H2')].
  - left. split; congruence.
  - right. rewrite H1 in Hn2. split; [done|]. exists s2. split; congruence.
  - right. split; [done|]. exists s. split; congruence.
  - rewrite H1 in Hn2. discriminate.
Qed.

Create HintDb stable.

Lemma stable_ret {A} (a : A) : stable (ret a).
Proof. intros st. apply step_refl. Qed.

Lemma stable_raise {A} (e : exn) : stable (@raise A e).
Proof. intros st. apply step_refl. Qed.

Lemma stable_lift {A} (r : result A) : stable (lift r).
Proof. intros st. apply step_refl. Qed.

Lemma stable_this : stable this.
Proof. intros st. apply step_refl. Qed.

Lemma stable_bind {A B} (m : M A) (f : A → M B) :
  stable m → (∀ a, stable (f a)) → stable (bind m f).
Proof.
  intros Hm Hf st. unfold bind. specialize (Hm st).
  destruct (m st) as [[a|e] st1]; simpl in *; [|done].
  eapply step_trans; [exact Hm|apply Hf].
Qed.

Lemma stable_if {A} (b : bool) (m1 m2 : M A) :
  stable m1 → stable m2 → stable (if b then m1 else m2).
Proof. by destruct b. Qed.

Lemma stable_get_requests_verify_args : stable get_requests_verify_args.
Proof.
  intros [self w]. left.
  pose proof (get_requests_verify_args_frame self w) as [H1 H2]. by split.
Qed.

Lemma stable_keeps_profile {A} (m : M A) : stable m → keeps_profile m.
Proof.
  intros Hm st other st'. specialize (Hm st). fold st' in Hm. clearbody st'.
  destruct Hm as [[H1 H2]|(Hn & s & H1 & H2)].
  - rewrite H1. do 7 (split; [reflexivity|]). split; [done|]. intros _. by left.
  - rewrite H1. do 7 (split; [reflexivity|]). split.
    + intros s' Hs'. congruence.
    + intros _. right. by exists s.
Qed.

#[local] Hint Resolve stable_ret stable_raise stable_lift stable_this
  stable_get_requests_verify_args : stable.
#[local] Hint Extern 2 (stable (bind _ _)) => apply stable_bind; [|intros] : stable.
#[local] Hint Extern 2 (stable (if _ then _ else _)) => apply stable_if : stable.
#[local] Hint Extern 3 (stable (match ?x with _ => _ end)) => destruct x : stable.

Section Stability.

Variable Session_init : AuthPlugin -> value -> value -> value -> option exn.
Variable Session_get_endpoint : list event -> Session -> endpoint_query -> result value.
Variable Session_get_token : Session -> result value.
Variable strip_version : value -> result (value * value).
Variable Client : Type.
Variable client_class : list pyobj -> gmap string pyobj -> result Client.

Lemma stable_get_session : stable (get_session Session_init).
Proof.
  intros [self w].
  destruct (_keystone_session self) as [s|] eqn:Hs.
  { rewrite (get_session_memoized Session_init self w s Hs). apply step_refl. }
  destruct (get_session Session_init (self, w)) as [[s|e] st'] eqn:Hrun.
  - right. split; [done|]. exists s.
    revert Hrun. unfold get_session. unfold bind at 1. unfold this at 1. simpl.
    rewrite Hs. destruct (_auth self) as [auth|]; [|discriminate].
    unfold bind at 1.
    pose proof (get_requests_verify_args_frame self w) as [Hself Hsess].
    destruct (get_requests_verify_args (self, w)) as [[[verify cert]|e'] [self1 w1]];
      simpl in Hself, Hsess; subst self1; [|discriminate].
    unfold Session_new. run. destruct (truthy verify); run;
      (destruct (config self !! "api_timeout") as [t|]; simpl; [|discriminate]);
      (destruct (Session_init auth verify cert t); simpl; [discriminate|]);
      intros [= <- <-]; simpl; by rewrite Hsess.
  - left. simpl. by apply (get_session_raise_frame Session_init self w e).
Qed.

Lemma stable_Session_query (session : Session) (query : endpoint_query) :
  stable (Session_query Session_get_endpoint session query).
Proof. intros st. by left. Qed.

Hint Resolve stable_get_session stable_Session_query : stable.

Lemma stable_get_session_endpoint (service_key : string) :
  stable (get_session_endpoint Session_init Session_get_endpoint service_key).
Proof. unfold get_session_endpoint. auto 10 with stable. Qed.

Hint Resolve stable_get_session_endpoint : stable.

Lemma stable_get_swift_client :
  stable (_get_swift_client Session_init Session_get_endpoint Session_get_token Client client_class).
Proof. unfold _get_swift_client. auto 12 with stable. Qed.

Hint Resolve stable_get_swift_client : stable.

Lemma stable_get_legacy_client (service_key : string) (interface_key : option string)
    (pass_version_arg : bool) (kwargs : gmap string pyobj) :
  stable (get_legacy_client Session_init Session_get_endpoint Session_get_token strip_version
            Client client_class service_key interface_key pass_version_arg kwargs).
Proof. unfold get_legacy_client. auto 20 with stable. Qed.

(** X9: whatever the collaborators answer, a call of
    [get_requests_verify_args], of the session accessor, of the endpoint
    accessor, of the storage bridge or of the legacy bridge changes nothing
    of the object but its memoised Session: [name], [region], [config],
    [force_ipv4], the auth plugin and the store stay, and so does every
    equality verdict.  A Session already memoised is kept and no other is
    constructed; otherwise at most one Session is constructed, and if one is,
    it is the one memoised. *)
Theorem calls_keep_profile :
  keeps_profile get_requests_verify_args
  ∧ keeps_profile (get_session Session_init)
  ∧ (∀ service_key,
       keeps_profile (get_session_endpoint Session_init Session_get_endpoint service_key))
  ∧ keeps_profile
      (_get_swift_client Session_init Session_get_endpoint Session_get_token Client client_class)
  ∧ (∀ service_key interface_key pass_version_arg kwargs,
       keeps_profile
         (get_legacy_client Session_init Session_get_endpoint Session_get_token strip_version
            Client client_class service_key interface_key pass_version_arg kwargs)).
Proof.
  split; [|split; [|split; [|split]]]; intros; apply stable_keeps_profile;
    auto using stable_get_legacy_client with stable.
Qed.

End Stability.

(** ** The legacy bridge: what reaches the constructor *)

Section LegacyFacts.

Variable Session_init : AuthPlugin -> value -> value -> value -> option exn.
Variable Session_get_endpoint : list event -> Session -> endpoint_query -> result value.
Variable Session_get_token : Session -> result value.
Variable strip_version : value -> result (value * value).
Variable Client : Type.
Variable client_class : list pyobj -> gmap string pyobj -> result Client.

Abbreviation legacy := (get_legacy_client Session_init Session_get_endpoint Session_get_token
                      strip_version Client client_class).

Lemma legacy_client_plain (self : CloudConfig) (w : world) (service_key : string)
    (interface_key : option string) (pass_version_arg : bool)
    (kwargs : gmap string pyobj) (endpoint : value) (st1 st2 : state)
    (session : Session) :
  service_key ≠ "object-store" → service_key ≠ "image" → service_key ≠ "identity" →
  get_session_endpoint Session_init Session_get_endpoint service_key (self, w)
    = (Return endpoint, st1) →
  get_session Session_init st1 = (Return session, st2) →
  legacy service_key interface_key pass_version_arg kwargs (self, w)
  = (constructed
       (client_class (version_args self service_key pass_version_arg)
          (<[interface_keyword service_key interface_key
             := OVal (get_interface self (Some service_key))]>
             (kwargs ∪ computed_kwargs self service_key session))),
     st2).
Proof.
  intros Hos%String.eqb_neq Him%String.eqb_neq Hid%String.eqb_neq Hep Hs.
  unfold get_legacy_client, interface_keyword, version_args. rewrite Hos.
  unfold bind at 1. unfold this at 1. simpl.
  unfold bind at 1. rewrite Hep.
  unfold bind at 1. rewrite Hs.
  rewrite Him, Hid. run. fold (computed_kwargs self service_key session).
  destruct pass_version_arg; simpl; by destruct (client_class _ _).
Qed.

(** X10: for a service other than [object-store], [image] and [identity],
    the endpoint and the Session having been obtained, the constructor is
    called once, and what it returns or raises is the outcome.  The interface
    goes under the chosen keyword ([endpoint_type] by default) and wins there
    over a caller's keyword of that name; under every other name the caller's
    keyword wins over the computed session, service name, service type and
    region; no [endpoint] is passed unless the caller gives one.  With
    [pass_version_arg] off there is no positional argument; with it on, a
    service other than [network] gets its resolved version as it is. *)
Theorem legacy_client_keywords (self : CloudConfig) (w : world) (service_key : string)
    (interface_key : option string) (pass_version_arg : bool)
    (kwargs : gmap string pyobj) (endpoint : value) (st1 st2 : state)
    (session : Session) :
  service_key ≠ "object-store" → service_key ≠ "image" → service_key ≠ "identity" →
  get_session_endpoint Session_init Session_get_endpoint service_key (self, w)
    = (Return endpoint, st1) →
  get_session Session_init st1 = (Return session, st2) →
  let ik := if not_arg interface_key then "endpoint_type"
            else default EmptyString interface_key in
  ∃ args kw,
    legacy service_key interface_key pass_version_arg kwargs (self, w)
    = (constructed (client_class args kw), st2)
    ∧ kw !! ik = Some (OVal (get_interface self (Some service_key)))
    ∧ (∀ k o, k ≠ ik → kwargs !! k = Some o → kw !! k = Some o)
    ∧ (∀ k, k ≠ ik → kwargs !! k = None →
            kw !! k = computed_kwargs self service_key session !! k)
    ∧ (ik ≠ "endpoint" → kw !! "endpoint" = kwargs !! "endpoint")
    ∧ (pass_version_arg = false → args = [])
    ∧ (pass_version_arg = true → service_key ≠ "network" →
       args = [OVal (get_api_version self service_key)]).
Proof.
  intros Hos Him Hid Hep Hs ik. eexists _, _.
  split; [by eapply legacy_client_plain|].
  assert (Hik : interface_keyword service_key interface_key = ik).
  { unfold interface_keyword, ik. apply String.eqb_neq in Him. by rewrite Him. }
  rewrite Hik. split; [apply lookup_insert_eq|].
  split; [|split; [|split; [|split]]].
  - intros k o Hk Hko. rewrite lookup_insert_ne by done.
    by apply lookup_union_Some_l.
  - intros k Hk Hko. rewrite lookup_insert_ne by done.
    by rewrite lookup_union_r.
  - intros Hk. rewrite lookup_insert_ne by done.
    destruct (kwargs !! "endpoint") as [o|] eqn:Hko.
    + by apply lookup_union_Some_l.
    + rewrite lookup_union_r by done. by vm_compute.
  - intros ->. reflexivity.
  - intros -> Hnet%String.eqb_neq. unfold version_args. by rewrite Hnet.
Qed.

Lemma legacy_client_identity (self : CloudConfig) (w : world)
    (interface_key : option string) (pass_version_arg : bool)
    (kwargs : gmap string pyobj) (endpoint : value) (st1 st2 : state)
    (session : Session) :
  get_session_endpoint Session_init Session_get_endpoint "identity" (self, w)
    = (Return endpoint, st1) →
  get_session Session_init st1 = (Return session, st2) →
  let kw := <[interface_keyword "identity" interface_key
              := OVal (get_interface self (Some "identity"))]>
              (kwargs ∪ computed_kwargs self "identity" session) in
  legacy "identity" interface_key pass_version_arg kwargs (self, w)
  = if pass_version_arg
    then match kw !! "endpoint" with
         | Some _ =>
             (constructed (client_class [OVal (get_api_version self "identity")] kw), st2)
         | None =>
             match get_session_endpoint Session_init Session_get_endpoint "identity" st2 with
             | (Return endpoint2, st3) =>
                 (constructed
                    (client_class [OVal (get_api_version self "identity")]
                       (<["endpoint" := OVal endpoint2]> kw)), st3)
             | (Raise e, st3) => (Raise e, st3)
             end
         end
    else (constructed (client_class [] kw), st2).
Proof.
  intros Hep Hs kw.
  unfold get_legacy_client. simpl.
  unfold bind at 1. unfold this at 1. simpl.
  unfold bind at 1. rewrite Hep.
  unfold bind at 1. rewrite Hs.
  run. fold (computed_kwargs self "identity" session).
  change (interface_keyword "identity" interface_key)
    with (if not_arg interface_key then "endpoint_type"
          else default EmptyString interface_key) in kw.
  fold kw.
  destruct pass_version_arg; simpl; [|by destruct (client_class _ _)].
  destruct (kw !! "endpoint") as [o|]; simpl; [by destruct (client_class _ _)|].
  destruct (get_session_endpoint Session_init Session_get_endpoint "identity" st2)
    as [[endpoint2|e] st3]; simpl; [|done].
  by destruct (client_class _ _).
Qed.

(** X11: for [identity], the endpoint and the Session having been obtained:
    when the version is passed and neither the caller nor the interface
    keyword supplies [endpoint], the identity endpoint is resolved a second
    time, in the state the first resolution and the Session acquisition
    left, and what that second resolution answers - which need not be what
    the first answered - is passed as [endpoint]; an exception of the second
    resolution is the outcome, without the constructor being called.  An
    [endpoint] given by the caller is passed on as it is, without a second
    resolution; and with [pass_version_arg] off no [endpoint] is added.  The
    version itself is never rewritten for [identity]. *)
Theorem legacy_client_identity_endpoint (self : CloudConfig) (w : world)
    (interface_key : option string) (kwargs : gmap string pyobj)
    (endpoint : value) (st1 st2 : state) (session : Session) :
  get_session_endpoint Session_init Session_get_endpoint "identity" (self, w)
    = (Return endpoint, st1) →
  get_session Session_init st1 = (Return session, st2) →
  (if not_arg interface_key then "endpoint_type"
   else default EmptyString interface_key) ≠ "endpoint" →
  let version := OVal (get_api_version self "identity") in
  (kwargs !! "endpoint" = None →
     (∀ endpoint2 st3,
        get_session_endpoint Session_init Session_get_endpoint "identity" st2
          = (Return endpoint2, st3) →
        ∃ kw, legacy "identity" interface_key true kwargs (self, w)
              = (constructed (client_class [version] kw), st3)
              ∧ kw !! "endpoint" = Some (OVal endpoint2))
     ∧ (∀ e st3,
          get_session_endpoint Session_init Session_get_endpoint "identity" st2 = (Raise e, st3) →
          legacy "identity" interface_key true kwargs (self, w) = (Raise e, st3))
     ∧ (∃ kw, legacy "identity" interface_key false kwargs (self, w)
              = (constructed (client_class [] kw), st2)
              ∧ kw !! "endpoint" = None))
  ∧ (∀ o, kwargs !! "endpoint" = Some o →
          ∃ kw, legacy "identity" interface_key true kwargs (self, w)
                = (constructed (client_class [version] kw), st2)
                ∧ kw !! "endpoint" = Some o).
Proof.
  intros Hep Hs Hik version.
  pose proof (legacy_client_identity self w interface_key true kwargs
                endpoint st1 st2 session Hep Hs) as Hon.
  pose proof (legacy_client_identity self w interface_key false kwargs
                endpoint st1 st2 session Hep Hs) as Hoff.
  cbv zeta in Hon, Hoff.
  change (interface_keyword "identity" interface_key)
    with (if not_arg interface_key then "endpoint_type"
          else default EmptyString interface_key) in Hon, Hoff.
  set (kw := <[_ := _]> (kwargs ∪ _)) in Hon, Hoff.
  assert (Hkw : kw !! "endpoint" = kwargs !! "endpoint").
  { unfold kw. rewrite lookup_insert_ne by done.
    destruct (kwargs !! "endpoint") as [o|] eqn:Hko.
    - by apply lookup_union_Some_l.
    - rewrite lookup_union_r by done. by vm_compute. }
  split; [intros Hnone; split; [|split]|].
  - intros endpoint2 st3 Hep2. rewrite Hkw, Hnone, Hep2 in Hon.
    eexists. split; [exact Hon|]. apply lookup_insert_eq.
  - intros e st3 Hep2. by rewrite Hkw, Hnone, Hep2 in Hon.
  - exists kw. split; [exact Hoff|]. by rewrite Hkw.
  - intros o Ho. rewrite Hkw, Ho in Hon. exists kw. split; [exact Hon|].
    by rewrite Hkw.
Qed.

Lemma legacy_client_image (self : CloudConfig) (w : world)
    (interface_key : option string) (pass_version_arg : bool)
    (kwargs : gmap string pyobj) (endpoint : value) (st1 st2 : state)
    (session : Session) :
  get_session_endpoint Session_init Session_get_endpoint "image" (self, w)
    = (Return endpoint, st1) →
  get_session Session_init st1 = (Return session, st2) →
  legacy "image" interface_key pass_version_arg kwargs (self, w)
  = match strip_version endpoint with
    | Return (stripped, _) =>
        (constructed
           (client_class
              (if pass_version_arg then [OVal (get_api_version self "image")] else [])
              (<[(if not_arg interface_key then "interface"
                  else default EmptyString interface_key)
                 := OVal (get_interface self (Some "image"))]>
                 (kwargs ∪ <["endpoint" := OVal stripped]>
                             (computed_kwargs self "image" session)))),
         st2)
    | Raise e => (Raise e, st2)
    end.
Proof.
  intros Hep Hs.
  unfold get_legacy_client. simpl.
  unfold bind at 1. unfold this at 1. simpl.
  unfold bind at 1. rewrite Hep.
  unfold bind at 1. rewrite Hs.
  run. fold (computed_kwargs self "image" session).
  destruct (strip_version endpoint) as [[stripped v]|e]; simpl; [|done].
  destruct pass_version_arg; simpl; by destruct (client_class _ _).
Qed.

(** X12: for [image], the endpoint and the Session having been obtained, the
    endpoint is put through [strip_version]: an exception of it is the
    outcome and the constructor is not called; otherwise the stripped
    endpoint is passed as [endpoint] unless the caller gives one, the
    interface goes under [interface] by default, and the positional argument,
    if any, is the configured API version - the version [strip_version]
    found is not used. *)
Theorem legacy_client_image_endpoint (self : CloudConfig) (w : world)
    (interface_key : option string) (pass_version_arg : bool)
    (kwargs : gmap string pyobj) (endpoint : value) (st1 st2 : state)
    (session : Session) :
  get_session_endpoint Session_init Session_get_endpoint "image" (self, w)
    = (Return endpoint, st1) →
  get_session Session_init st1 = (Return session, st2) →
  let ik := if not_arg interface_key then "interface"
            else default EmptyString interface_key in
  (∀ e, strip_version endpoint = Raise e →
        legacy "image" interface_key pass_version_arg kwargs (self, w)
        = (Raise e, st2))
  ∧ (∀ stripped found, strip_version endpoint = Return (stripped, found) →
       ∃ kw,
         legacy "image" interface_key pass_version_arg kwargs (self, w)
         = (constructed
              (client_class
                 (if pass_version_arg
                  then [OVal (get_api_version self "image")] else []) kw),
            st2)
         ∧ kw !! ik = Some (OVal (get_interface self (Some "image")))
         ∧ (ik ≠ "endpoint" → kwargs !! "endpoint" = None →
            kw !! "endpoint" = Some (OVal stripped))
         ∧ (∀ o, ik ≠ "endpoint" → kwargs !! "endpoint" = Some o →
                 kw !! "endpoint" = Some o)).
Proof.
  intros Hep Hs ik.
  pose proof (legacy_client_image self w interface_key pass_version_arg kwargs
                endpoint st1 st2 session Hep Hs) as Hrun.
  split.
  - intros e He. by rewrite He in Hrun.
  - intros stripped found Hst. rewrite Hst in Hrun. eexists. split; [exact Hrun|].
    fold ik. split; [apply lookup_insert_eq|]. split.
    + intros Hik Hnone. rewrite lookup_insert_ne by done.
      rewrite lookup_union_r by done. apply lookup_insert_eq.
    + intros o Hik Ho. rewrite lookup_insert_ne by done.
      by apply lookup_union_Some_l.
Qed.

(** ** The storage bridge *)

(** X13: for [object-store] the bridge ignores the interface keyword, the
    version switch and the caller's keywords.  It asks for the Session
    first, so that without an auth plugin it raises the configuration error
    even when an endpoint override is configured.  With a Session memoised,
    its token obtained and the endpoint resolved: a falsy endpoint gives
    [None] without the constructor being called; a truthy one makes the
    constructor be called with no positional argument and the keywords
    [preauthurl], [preauthtoken], [auth_version], [os_options] and
    [timeout], the timeout being the [api_timeout] attribute. *)
Theorem swift_client_outcomes (self : CloudConfig) (w : world)
    (interface_key : option string) (pass_version_arg : bool)
    (kwargs : gmap string pyobj) :
  (_auth self = None → _keystone_session self = None →
     legacy "object-store" interface_key pass_version_arg kwargs (self, w)
     = (Raise (OpenStackConfigException "Problem with auth parameters"), (self, w)))
  ∧ (∀ s token endpoint w1,
       _keystone_session self = Some s →
       Session_get_token s = Return token →
       get_session_endpoint Session_init Session_get_endpoint "object-store" (self, w)
         = (Return endpoint, (self, w1)) →
       (truthy endpoint = false →
          legacy "object-store" interface_key pass_version_arg kwargs (self, w)
          = (Return None, (self, w1)))
       ∧ (∀ timeout, truthy endpoint = true →
            __getattr__ self "api_timeout" = Return timeout →
            legacy "object-store" interface_key pass_version_arg kwargs (self, w)
            = (constructed
                 (client_class [] (swift_kwargs self endpoint token timeout)),
               (self, w1)))).
Proof.
  split.
  - intros Ha Hs. unfold get_legacy_client. simpl. unfold _get_swift_client.
    unfold bind at 1. by rewrite (get_session_no_auth Session_init self w Ha Hs).
  - intros s token endpoint w1 Hs Htok Hep.
    assert (Hrun : legacy "object-store" interface_key pass_version_arg kwargs (self, w)
      = (if negb (truthy endpoint) then ret None
         else
           self0 <- this ;;
           timeout <- lift (__getattr__ self0 "api_timeout") ;;
           c <- lift (client_class []
                  (swift_kwargs self0 endpoint token timeout)) ;;
           ret (Some c)) (self, w1)).
    { unfold get_legacy_client. simpl. unfold _get_swift_client.
      unfold bind at 1. rewrite (get_session_memoized Session_init self w s Hs).
      unfold bind at 1. unfold lift at 1. rewrite Htok.
      unfold bind at 1. rewrite Hep. reflexivity. }
    split.
    + intros Tep. rewrite Hrun, Tep. reflexivity.
    + intros timeout Tep Hto. rewrite Hrun, Tep. run. rewrite Hto.
      by destruct (client_class _ _).
Qed.

End LegacyFacts.

Lemma legacy_client_keywords_witness :
  ∃ kw,
    get_legacy_client numeric_timeout net_catalog no_token no_strip _ record_call
      "compute" None false region_override (net_profile, mkWorld [] [])
    = (Return (Some ([], kw)), net_state [plain_query "compute"])
    ∧ kw !! "region_name" = Some (OVal (VStr "elsewhere"))
    ∧ kw !! "endpoint_type" = Some (OVal VNone).
Proof.
  destruct (legacy_client_keywords numeric_timeout net_catalog no_token no_strip _ record_call
              net_profile (mkWorld [] []) "compute" None false region_override
              (VStr "https://network.example")
              (net_state [plain_query "compute"]) (net_state [plain_query "compute"])
              net_session)
    as (args & kw & Hrun & Hik & Hcaller & _ & _ & Hargs & _).
  - discriminate.
  - discriminate.
  - discriminate.
  - vm_compute; reflexivity.
  - vm_compute; reflexivity.
  - exists kw. rewrite (Hargs eq_refl) in Hrun. split; [exact Hrun|]. split.
    + apply Hcaller; [discriminate | vm_compute; reflexivity].
    + exact Hik.
Defined.

Lemma legacy_client_identity_endpoint_witness :
  (∃ kw,
     get_legacy_client numeric_timeout moving_catalog no_token no_strip _ record_call
       "identity" None true ∅ (net_profile, mkWorld [] [])
     = (Return (Some ([OVal VNone], kw)),
        net_state [AuthInterfaceQuery; AuthInterfaceQuery])
     ∧ kw !! "endpoint" = Some (OVal (VStr "https://second.example")))
  ∧ get_legacy_client numeric_timeout flaky_catalog no_token no_strip _ record_call
      "identity" None true ∅ (net_profile, mkWorld [] [])
    = (Raise (ExternalError "connection reset"),
       net_state [AuthInterfaceQuery; AuthInterfaceQuery]).
Proof.
  split.
  - destruct (legacy_client_identity_endpoint numeric_timeout moving_catalog
                no_token no_strip _ record_call
                net_profile (mkWorld [] []) None ∅
                (VStr "https://first.example")
                (net_state [AuthInterfaceQuery]) (net_state [AuthInterfaceQuery])
                net_session)
      as [Hnone _].
    + vm_compute; reflexivity.
    + vm_compute; reflexivity.
    + discriminate.
    + destruct (Hnone eq_refl) as (Hforce & _ & _).
      destruct (Hforce (VStr "https://second.example")
                  (net_state [AuthInterfaceQuery; AuthInterfaceQuery]))
        as (kw & Hrun & Hkw).
      * vm_compute; reflexivity.
      * exists kw. split; [exact Hrun | exact Hkw].
  - destruct (legacy_client_identity_endpoint numeric_timeout flaky_catalog
                no_token no_strip _ record_call
                net_profile (mkWorld [] []) None ∅
                (VStr "https://first.example")
                (net_state [AuthInterfaceQuery]) (net_state [AuthInterfaceQuery])
                net_session)
      as [Hnone _].
    + vm_compute; reflexivity.
    + vm_compute; reflexivity.
    + discriminate.
    + destruct (Hnone eq_refl) as (_ & Hraise & _).
      apply Hraise. vm_compute; reflexivity.
Defined.

Lemma legacy_client_image_endpoint_witness :
  ∃ kw,
    get_legacy_client numeric_timeout net_catalog no_token no_strip _ record_call
      "image" None false ∅ (net_profile, mkWorld [] [])
    = (Return (Some ([], kw)), net_state [plain_query "image"])
    ∧ kw !! "interface" = Some (OVal VNone)
    ∧ kw !! "endpoint" = Some (OVal (VStr "https://network.example")).
Proof.
  destruct (legacy_client_image_endpoint numeric_timeout net_catalog no_token no_strip _ record_call
              net_profile (mkWorld [] []) None false ∅
              (VStr "https://network.example")
              (net_state [plain_query "image"]) (net_state [plain_query "image"])
              net_session)
    as [_ Hok].
  - vm_compute; reflexivity.
  - vm_compute; reflexivity.
  - destruct (Hok (VStr "https://network.example") VNone eq_refl)
      as (kw & Hrun & Hik & Hep & _).
    exists kw. split; [exact Hrun|]. split; [exact Hik|].
    apply Hep; [discriminate | reflexivity].
Defined.

Lemma swift_client_outcomes_witness :
  get_legacy_client numeric_timeout net_catalog no_token no_strip _ record_call
    "object-store" None true ∅
    (__init__ "cloud" "region" swift_override false None None, mkWorld [] [])
  = (Raise (OpenStackConfigException "Problem with auth parameters"),
     (__init__ "cloud" "region" swift_override false None None, mkWorld [] []))
  ∧ get_session_endpoint numeric_timeout net_catalog "object-store"
      (__init__ "cloud" "region" swift_override false None None, mkWorld [] [])
    = (Return (VStr "https://swift.example"),
       (__init__ "cloud" "region" swift_override false None None, mkWorld [] [])).
Proof.
  split.
  - apply (proj1 (swift_client_outcomes numeric_timeout net_catalog no_token no_strip _ record_call
                    (__init__ "cloud" "region" swift_override false None None)
                    (mkWorld [] []) None true ∅)).
    + reflexivity.
    + reflexivity.
  - vm_compute; reflexivity.
Defined.

(** ** Per-service keys *)

Lemma service_keys_differ (s s' suffix : string) :
  s ≠ s' → s ++ suffix ≠ s' ++ suffix.
Proof. intros Hne Heq. by apply Hne, (append_inj_r s s' suffix). Qed.

(** X14: an override stored for one service is not seen by the accessors
    when they are asked about another service: for each of the six
    per-service accessors, writing the key of service [s] into the config
    leaves the answer for every other service [s'] as it was. *)
Theorem per_service_overrides_isolated (n r : string) (c : gmap string value)
    (f : bool) (a : option AuthPlugin) (o : option OpenStackConfig)
    (ks : option Session) (s s' : string) (v : value) :
  s ≠ s' →
  let self := mkCloudConfig n r c f a o ks in
  let override suffix := mkCloudConfig n r (<[s ++ suffix := v]> c) f a o ks in
  get_interface (override "_interface") (Some s') = get_interface self (Some s')
  ∧ get_region_name (override "_region_name") (Some s')
    = get_region_name self (Some s')
  ∧ get_api_version (override "_api_version") s' = get_api_version self s'
  ∧ get_service_type (override "_service_type") s' = get_service_type self s'
  ∧ get_service_name (override "_service_name") s' = get_service_name self s'
  ∧ get_endpoint (override "_endpoint") s' = get_endpoint self s'.
Proof.
  intros Hne self override.
  assert (Hkey : ∀ suffix, (<[s ++ suffix := v]> c) !! (s' ++ suffix) = c !! (s' ++ suffix)).
  { intros suffix. apply lookup_insert_ne. by apply service_keys_differ. }
  assert (Hbare : (<[s ++ "_interface" := v]> c) !! "interface" = c !! "interface").
  { apply lookup_insert_ne. intros Heq. apply (f_equal String.length) in Heq.
    rewrite append_length in Heq. simpl in Heq. lia. }
  unfold get_interface, get_region_name, get_api_version, get_service_type,
    get_service_name, get_endpoint, dict_get, self, override. simpl.
  rewrite !Hkey, Hbare. done.
Qed.

Lemma per_service_overrides_isolated_witness :
  get_interface
    (mkCloudConfig "cloud" "region"
       (<["network" ++ "_interface" := VStr "internal"]> compute_public)
       false None None None) (Some "compute")
  = get_interface
      (mkCloudConfig "cloud" "region" compute_public false None None None)
      (Some "compute").
Proof.
  apply (per_service_overrides_isolated "cloud" "region" compute_public
           false None None None "network" "compute" (VStr "internal")).
  discriminate.
Defined.

(** ** Failures of the TLS arguments *)

(** X15: [get_requests_verify_args] raises only [KeyError], and exactly in
    three cases: for [verify] when the config has no such entry; for
    [cacert] when it has [verify] but no [cacert]; and for [key] when it has
    both, its [cert] is truthy and it has no [key]. *)
Theorem verify_args_raise_iff (self : CloudConfig) (w : world) (e : exn) :
  (get_requests_verify_args (self, w)).1 = Raise e
  ↔ (config self !! "verify" = None ∧ e = KeyError "verify")
    ∨ (is_Some (config self !! "verify") ∧ config self !! "cacert" = None
       ∧ e = KeyError "cacert")
    ∨ (is_Some (config self !! "verify") ∧ is_Some (config self !! "cacert")
       ∧ truthy (dict_get (config self) "cert" VNone) = true
       ∧ config self !! "key" = None ∧ e = KeyError "key").
Proof.
  destruct (config self !! "verify") as [v|] eqn:Hv.
  2: { unfold get_requests_verify_args. run. rewrite Hv. simpl. split.
       - intros [= <-]. by left.
       - intros [[_ ->]|[([? ?] & _)|([? ?] & _)]]; done. }
  destruct (config self !! "cacert") as [c|] eqn:Hc.
  2: { unfold get_requests_verify_args. run. rewrite Hv. simpl.
       destruct (truthy v); simpl; rewrite ?Hv, Hc; simpl; split.
       - intros [= <-]. right; left. eauto.
       - intros [[? _]|[(_ & _ & ->)|(_ & [? ?] & _)]]; done.
       - intros [= <-]. right; left. eauto.
       - intros [[? _]|[(_ & _ & ->)|(_ & [? ?] & _)]]; done. }
  destruct (truthy (dict_get (config self) "cert" VNone)) eqn:Tcert.
  - destruct (config self !! "key") as [k|] eqn:Hk.
    + rewrite (get_requests_verify_args_ok self w v c Hv Hc) by eauto. simpl. split.
      * discriminate.
      * intros [[? _]|[(_ & ? & _)|(_ & _ & _ & ? & _)]]; done.
    + assert (Hrun : (get_requests_verify_args (self, w)).1 = Raise (KeyError "key")).
      { unfold get_requests_verify_args. run. rewrite Hv, Hc.
        unfold dict_get in Tcert.
        destruct (truthy v), (truthy c); simpl; rewrite ?Hv, ?Hc; simpl;
          destruct (config self !! "cert") as [cert|]; simpl in *; try done;
          rewrite Tcert; simpl; rewrite Hk; simpl;
          try (destruct (truthy c)); reflexivity. }
      rewrite Hrun. split.
      * intros [= <-]. right; right. eauto 10.
      * intros [[? _]|[(_ & ? & _)|(_ & _ & _ & _ & ->)]]; done.
  - rewrite (get_requests_verify_args_ok self w v c Hv Hc)
      by (intros; congruence). simpl. split.
    + discriminate.
    + intros [[? _]|[(_ & ? & _)|(_ & _ & ? & _)]]; done.
Qed.
